(** * The Node.js micro-transaction handler (mmog-microtx-js/src/handler.js)

    A shallow embedding of [handler.js]: the Joi purchase schema, the
    PostgreSQL statements the handler sends, the simulated payment
    processor, the purchase pipeline and the Lambda entry point, followed
    by the properties of the specification that concern them.

    JavaScript values that the code builds or inspects dynamically (request
    bodies, the payment result, response bodies) are kept as [JsValue]
    objects with named properties; data that the code only ever handles at
    one type after validation is kept in records.  Effects (the module-level
    [cachedClient], the database, [uuidv4], [Date], thrown errors) are
    threaded through the [Js] monad. *)

From Stdlib Require Import List String Ascii ZArith QArith Qround Bool Lia.
From Stdlib Require Import DecimalString.
From Stdlib Require Import Sorting.Sorted Sorting.Permutation.
From ExtLib Require Import Structures.Monad Structures.MonadExc.
Import ListNotations.
Import MonadNotation.

Local Open Scope Z_scope.
Local Open Scope string_scope.
Local Open Scope list_scope.
Local Open Scope monad_scope.

Set Warnings "-register-all".

(** ** JavaScript values *)

(** Instants are milliseconds since the epoch; [new Date().toISOString()]
    yields the ISO-8601 text of an instant, kept as [JIso t]. *)
Definition Instant := Z.

Inductive JsValue : Type :=
| JUndefined
| JNull
| JBool (b : bool)
| JNum (q : Q)
| JStr (s : string)
| JIso (t : Instant)
| JArr (items : list JsValue)
| JObj (fields : list (string * JsValue)).

(** Own-property lookup in an object literal. *)
Fixpoint assoc (k : string) (fields : list (string * JsValue)) : option JsValue :=
  match fields with
  | [] => None
  | (k', v) :: rest => if String.eqb k k' then Some v else assoc k rest
  end.

(** [v.k]: [undefined] when the property is absent. *)
Definition prop (k : string) (v : JsValue) : JsValue :=
  match v with
  | JObj fields => match assoc k fields with Some x => x | None => JUndefined end
  | _ => JUndefined
  end.

(** [k in v] for object literals. *)
Definition hasProp (k : string) (v : JsValue) : bool :=
  match v with
  | JObj fields => match assoc k fields with Some _ => true | None => false end
  | _ => false
  end.

(** The property names of an object, in insertion order. *)
Definition keys (v : JsValue) : list string :=
  match v with
  | JObj fields => map fst fields
  | _ => []
  end.

(** ToBoolean. *)
Definition truthy (v : JsValue) : bool :=
  match v with
  | JUndefined | JNull => false
  | JBool b => b
  | JNum q => negb (Qeq_bool q 0)
  | JStr s => negb (String.eqb s "")
  | JIso _ | JArr _ | JObj _ => true
  end.

(** ** Transaction rows *)

(** [TransactionStatus] (handler.js 49-54), the [transaction_status] enum
    of the migration. *)
Inductive TransactionStatus := PENDING | COMPLETED | FAILED | REFUNDED.

Definition status_text (s : TransactionStatus) : string :=
  match s with
  | PENDING => "pending"
  | COMPLETED => "completed"
  | FAILED => "failed"
  | REFUNDED => "refunded"
  end.

(** One row of [microtransactions] (001_create_transactions.sql). *)
Module Tx.
Record row := mk {
  transaction_id : string;
  player_id : string;
  item_id : string;
  item_name : string;
  price_cents : Z;
  currency : string;
  quantity : Z;
  status : TransactionStatus;
  processor_id : option string;
  metadata : JsValue;
  created_at : Instant;
  updated_at : Instant
}.

Definition set_status (s : TransactionStatus) (t : Instant) (r : row) : row :=
  mk (transaction_id r) (player_id r) (item_id r) (item_name r)
     (price_cents r) (currency r) (quantity r) s (processor_id r)
     (metadata r) (created_at r) t.

(** The object [pg] hands back for a row. *)
Definition to_js (r : row) : JsValue :=
  JObj [ ("transaction_id", JStr (transaction_id r));
         ("player_id", JStr (player_id r));
         ("item_id", JStr (item_id r));
         ("item_name", JStr (item_name r));
         ("price_cents", JNum (inject_Z (price_cents r)));
         ("currency", JStr (currency r));
         ("quantity", JNum (inject_Z (quantity r)));
         ("status", JStr (status_text (status r)));
         ("processor_id",
           match processor_id r with Some p => JStr p | None => JNull end);
         ("metadata", metadata r);
         ("created_at", JIso (created_at r));
         ("updated_at", JIso (updated_at r)) ].
End Tx.

(** The value Joi hands to [processPurchase] for an accepted body. *)
Module Purchase.
Record data := mk {
  player_id : string;
  item_id : string;
  item_name : string;
  price_cents : Z;
  currency : string;
  quantity : Z;
  metadata : JsValue   (* [JUndefined] when absent *)
}.
End Purchase.

(** The argument of [processPayment] (handler.js 136-140). *)
Module Payment.
Record data := mk {
  amount : Z;
  currency : string;
  playerId : string
}.
End Payment.

(** ** The statements sent through [client.query] *)

Inductive Query :=
| QSelect1                                             (* SELECT 1 *)
| QBegin
| QCommit
| QRollback
| QInsert (r : Tx.row)                                 (* INSERT ... RETURNING * *)
| QUpdateStatus (s : TransactionStatus) (t : Instant) (id : string)
| QSelectByPlayer (playerId : string) (limit : nat).   (* ORDER BY created_at DESC LIMIT *)

Inductive JsError :=
| DbError (q : Query)          (* the rejection of a [client.query] promise *)
| ConnectError                 (* the rejection of [client.connect] *)
| TypeError (msg : string)
| SyntaxError (msg : string).  (* JSON.parse *)

Definition error_message (e : JsError) : string :=
  match e with
  | DbError _ => "query failed"
  | ConnectError => "connection failed"
  | TypeError m => m
  | SyntaxError m => m
  end.

(** ** The world the handler runs in *)

(** A [pg] client; only the [_ending] flag is read by the code. *)
Record Client := { _ending : bool }.

(** - [cachedClient]: the module-level variable (handler.js 60);
    - [committed]: the durable rows of [microtransactions];
    - [session]: the rows as seen inside the open transaction of the
      current connection, if there is one;
    - [faults]: the environment's schedule, one flag per operation sent to
      the server ([connect] or a statement), [true] when that operation is
      rejected; every cause of a rejection (lost connection, time-out,
      constraint violation) is carried by this schedule, an exhausted
      schedule rejects nothing;
    - [sent]: the statements sent so far, oldest first;
    - [uuid_seed], [clock]: the sources behind [uuidv4()] and [new Date()];
    - [authorized]: the payment requests [processPayment] has received,
      oldest first;
    - [development]: [process.env.NODE_ENV === 'development']. *)
Record World := mkWorld {
  cachedClient : option Client;
  committed : list Tx.row;
  session : option (list Tx.row);
  faults : list bool;
  sent : list Query;
  uuid_seed : N;
  clock : Instant;
  authorized : list Payment.data;
  development : bool
}.

Definition set_cachedClient (c : option Client) (w : World) : World :=
  mkWorld c (committed w) (session w) (faults w) (sent w) (uuid_seed w)
          (clock w) (authorized w) (development w).

Definition set_rows (c : list Tx.row) (s : option (list Tx.row)) (w : World) : World :=
  mkWorld (cachedClient w) c s (faults w) (sent w) (uuid_seed w)
          (clock w) (authorized w) (development w).

Definition set_faults (f : list bool) (w : World) : World :=
  mkWorld (cachedClient w) (committed w) (session w) f (sent w) (uuid_seed w)
          (clock w) (authorized w) (development w).

Definition set_sent (q : list Query) (w : World) : World :=
  mkWorld (cachedClient w) (committed w) (session w) (faults w) q (uuid_seed w)
          (clock w) (authorized w) (development w).

Definition set_uuid_seed (n : N) (w : World) : World :=
  mkWorld (cachedClient w) (committed w) (session w) (faults w) (sent w) n
          (clock w) (authorized w) (development w).

Definition set_clock (t : Instant) (w : World) : World :=
  mkWorld (cachedClient w) (committed w) (session w) (faults w) (sent w)
          (uuid_seed w) t (authorized w) (development w).

Definition set_authorized (a : list Payment.data) (w : World) : World :=
  mkWorld (cachedClient w) (committed w) (session w) (faults w) (sent w)
          (uuid_seed w) (clock w) a (development w).

(** ** The effect monad: state plus thrown errors *)

Inductive Outcome (A : Type) : Type :=
| Return (a : A)
| Throw (e : JsError).
Arguments Return {A} a.
Arguments Throw {A} e.

(** An [async] function: it runs in a world and either returns or throws;
    the world it leaves behind is kept in both cases. *)
Definition Js (A : Type) : Type := World -> Outcome A * World.

#[global] Instance Monad_Js : Monad Js := {
  ret := fun A (a : A) (w : World) => (Return a, w);
  bind := fun A B (c : Js A) (k : A -> Js B) (w : World) =>
    match c w with
    | (Return a, w') => k a w'
    | (Throw e, w') => (Throw e, w')
    end
}.

(** [throw] and [try { ... } catch (error) { ... }]. *)
#[global] Instance MonadExc_Js : MonadExc JsError Js := {
  raise := fun A (e : JsError) (w : World) => (Throw e, w);
  catch := fun A (body : Js A) (handler : JsError -> Js A) (w : World) =>
    match body w with
    | (Return a, w') => (Return a, w')
    | (Throw e, w') => handler e w'
    end
}.

Definition modify (f : World -> World) : Js unit :=
  fun w => (Return tt, f w).

Definition read {A : Type} (f : World -> A) : Js A :=
  fun w => (Return (f w), w).

(** ** The database behind [client.query] *)

(** The rows a statement of the current connection sees. *)
Definition visible (w : World) : list Tx.row :=
  match session w with
  | Some rows => rows
  | None => committed w
  end.

(** A write lands in the open transaction, or directly in the durable rows
    when the connection is in autocommit mode. *)
Definition write (rows : list Tx.row) (w : World) : World :=
  match session w with
  | Some _ => set_rows (committed w) (Some rows) w
  | None => set_rows rows None w
  end.

(** [ORDER BY created_at DESC]: insertion keeps rows of equal [created_at]
    in the order the table yields them (SQL leaves that order open). *)
Fixpoint insert_desc (r : Tx.row) (l : list Tx.row) : list Tx.row :=
  match l with
  | [] => [r]
  | x :: rest =>
      if Z.leb (Tx.created_at x) (Tx.created_at r)
      then r :: l
      else x :: insert_desc r rest
  end.

Definition order_by_created_desc (l : list Tx.row) : list Tx.row :=
  fold_right insert_desc [] l.

Definition of_player (playerId : string) (r : Tx.row) : bool :=
  String.eqb (Tx.player_id r) playerId.

(** What an accepted statement does: the rows it returns and the world it
    leaves.  [BEGIN] inside a transaction and [COMMIT] outside one only
    raise a warning in PostgreSQL.  The [UPDATE] writes the [updated_at]
    it is given; the trigger of the migration, which stamps the server's
    clock instead, is not modelled apart. *)
Definition run (q : Query) (w : World) : list Tx.row * World :=
  match q with
  | QSelect1 => ([], w)
  | QBegin =>
      ([], match session w with
           | Some _ => w
           | None => set_rows (committed w) (Some (committed w)) w
           end)
  | QCommit =>
      ([], match session w with
           | Some rows => set_rows rows None w
           | None => w
           end)
  | QRollback => ([], set_rows (committed w) None w)
  | QInsert r => ([r], write (visible w ++ [r]) w)
  | QUpdateStatus s t id =>
      ([], write (map (fun r => if String.eqb (Tx.transaction_id r) id
                                then Tx.set_status s t r else r)
                      (visible w)) w)
  | QSelectByPlayer playerId limit =>
      (firstn limit (order_by_created_desc (filter (of_player playerId) (visible w))), w)
  end.

(** The environment decides whether the next operation is rejected. *)
Definition next_fault (w : World) : bool * World :=
  match faults w with
  | [] => (false, w)
  | b :: rest => (b, set_faults rest w)
  end.

(** [await client.query(...)]: resolves with the rows or rejects. *)
Definition query (q : Query) : Js (list Tx.row) :=
  fun w =>
    let (rejected, w1) := next_fault (set_sent (sent w ++ [q]) w) in
    if rejected then (Throw (DbError q), w1)
    else let (rows, w2) := run q w1 in (Return rows, w2).

(** [await client.connect()]: a new connection starts outside any
    transaction. *)
Definition connect : Js unit :=
  fun w =>
    let (rejected, w1) := next_fault w in
    if rejected then (Throw ConnectError, w1)
    else (Return tt, set_rows (committed w1) None w1).

(** ** [uuidv4()] and [new Date()] *)

Definition hex_digit (n : N) : ascii :=
  nth (N.to_nat n)
      ["0"; "1"; "2"; "3"; "4"; "5"; "6"; "7"; "8"; "9";
       "a"; "b"; "c"; "d"; "e"; "f"]%char "0"%char.

Fixpoint hex_digits (len : nat) (n : N) : list ascii :=
  match len with
  | O => []
  | S k => hex_digits k (N.div n 16) ++ [hex_digit (N.modulo n 16)]
  end.

(** The canonical text of a version-4 identifier whose 120 free bits are
    taken from the seed. *)
Definition uuid_of_seed (n : N) : string :=
  let d := hex_digits 30 n in
  string_of_list_ascii
    (firstn 8 d ++ "-"%char :: firstn 4 (skipn 8 d)
       ++ "-"%char :: "4"%char :: firstn 3 (skipn 12 d)
       ++ "-"%char :: "8"%char :: firstn 3 (skipn 15 d)
       ++ "-"%char :: skipn 18 d).

Definition uuidv4 : Js string :=
  fun w => (Return (uuid_of_seed (uuid_seed w)),
            set_uuid_seed (N.succ (uuid_seed w)) w).

(** [new Date().toISOString()]. *)
Definition now_iso : Js Instant := read clock.

(** [await new Promise(resolve => setTimeout(resolve, ms))]. *)
Definition sleep (ms : Z) : Js unit :=
  modify (fun w => set_clock (clock w + ms) w).

(** ** handler.js 65-80: [getDbClient] *)

Definition getDbClient : Js Client :=
  cached <- read cachedClient ;;
  alive <- match cached with
           | Some c =>
               if negb (_ending c)
               then catch (query QSelect1 ;; ret (Some c))
                          (fun _ => modify (set_cachedClient None) ;; ret None)
               else ret None
           | None => ret None
           end ;;
  match alive with
  | Some c => ret c
  | None =>
      let c := {| _ending := false |} in
      modify (set_cachedClient (Some c)) ;;
      connect ;;
      ret c
  end.

(** ** handler.js 182-196: [processPayment] *)

(** The first step only records the request in the world's [authorized]
    log, so that what the processor was asked can be observed. *)
Definition processPayment (paymentData : Payment.data) : Js JsValue :=
  modify (fun w => set_authorized (authorized w ++ [paymentData]) w) ;;
  sleep 50 ;;
  let success := Z.ltb (Payment.amount paymentData) 100000 in
  processorId <- uuidv4 ;;
  timestamp <- now_iso ;;
  ret (JObj ([ ("success", JBool success);
               ("processorId", JStr processorId);
               ("timestamp", JIso timestamp) ]
             ++ (if success then [] else [("error", JStr "Payment declined")]))).

(** ** handler.js 89-176: [processPurchase] *)

(** [purchaseData.metadata || {}]. *)
Definition metadata_or_empty (m : JsValue) : JsValue :=
  if truthy m then m else JObj [].

(** The [try] block (92-170).  [purchaseData] is [None] when Joi hands
    back [undefined]; reading a property of it then throws. *)
Definition processPurchase_try (purchaseData : option Purchase.data) : Js JsValue :=
  query QBegin ;;
  transactionId <- uuidv4 ;;
  now <- now_iso ;;
  d <- match purchaseData with
       | Some d => ret d
       | None => raise (TypeError "Cannot read properties of undefined")
       end ;;
  query (QInsert (Tx.mk transactionId
                        (Purchase.player_id d)
                        (Purchase.item_id d)
                        (Purchase.item_name d)
                        (Purchase.price_cents d)
                        (Purchase.currency d)
                        (Purchase.quantity d)
                        PENDING
                        None
                        (metadata_or_empty (Purchase.metadata d))
                        now
                        now)) ;;
  paymentResult <- processPayment
                     (Payment.mk (Purchase.price_cents d)
                                 (Purchase.currency d)
                                 (Purchase.player_id d)) ;;
  (if truthy (prop "success" paymentResult)
   then t <- now_iso ;; query (QUpdateStatus COMPLETED t transactionId)
   else t <- now_iso ;; query (QUpdateStatus FAILED t transactionId)) ;;
  query QCommit ;;
  ret (JObj [ ("transactionId", JStr transactionId);
              ("status", JStr (status_text
                                 (if truthy (prop "success" paymentResult)
                                  then COMPLETED else FAILED)));
              ("item", JObj [ ("id", JStr (Purchase.item_id d));
                              ("name", JStr (Purchase.item_name d));
                              ("quantity", JNum (inject_Z (Purchase.quantity d))) ]);
              ("payment", JObj [ ("amount", JNum (inject_Z (Purchase.price_cents d)));
                                 ("currency", JStr (Purchase.currency d)) ]) ]).

Definition processPurchase (purchaseData : option Purchase.data) : Js JsValue :=
  _ <- getDbClient ;;
  catch (processPurchase_try purchaseData)
        (fun error => query QRollback ;; raise error).

(** ** handler.js 202-215: [getPlayerTransactions] *)

Definition getPlayerTransactions (playerId : string) (limit : option nat)
  : Js (list Tx.row) :=
  let limit := match limit with Some n => n | None => 100%nat end in
  _ <- getDbClient ;;
  query (QSelectByPlayer playerId limit).

(** ** Joi *)

(** The part of Joi 17 that [purchaseSchema] uses, under Joi's default
    preferences ([convert: true], [allowUnknown: false]); [abortEarly] is
    kept as a parameter, its default is [true].

    A JavaScript string is modelled by a [string] with one character for
    each of its UTF-16 code units, which fits the strings of ASCII
    characters ([ascii_text] below) and no others.  On those, the length
    Joi compares ([value.length], in code units) is [String.length], and
    the conversion of [uppercase()] ([value.toLocaleUpperCase()]) is
    [upper].  A text with other characters has no faithful image here:
    the theorems that speak of the length or of the converted value in a
    request that is shown to pass validation assume [ascii_text] of
    it.  The tests of a pattern ([guid]) and of emptiness do not count
    characters and need no such assumption. *)
Module Joi.
Local Open Scope string_scope.

Definition dquote : string := String (ascii_of_nat 34) EmptyString.

(** The label Joi prints in front of a message. *)
Definition label (k : string) : string := dquote ++ k ++ dquote.

Definition decimal (z : Z) : string := NilZero.string_of_int (Z.to_int z).

Definition code (c : ascii) : N := N_of_ascii c.

Definition between (lo hi c : ascii) : bool :=
  (N.leb (code lo) (code c) && N.leb (code c) (code hi))%bool.

Definition is_digit (c : ascii) : bool := between "0" "9" c.

Definition is_hex (c : ascii) : bool :=
  (is_digit c || between "a" "f" c || between "A" "F" c)%bool.

Definition one_of (cs : list ascii) (c : ascii) : bool :=
  existsb (Ascii.eqb c) cs.

(** *** [string().guid()]

    Joi's pattern, without case: an optional opening bracket (square,
    curly or round), 8 hexadecimal digits, an optional separator (colon
    or hyphen), then groups of 4, 4, 4 and 12 hexadecimal digits, each
    optionally preceded by the same separator, and an optional closing
    bracket; the two brackets then have to match. *)
Fixpoint take_hex (n : nat) (l : list ascii) : option (list ascii) :=
  match n with
  | O => Some l
  | S k => match l with
           | c :: rest => if is_hex c then take_hex k rest else None
           | [] => None
           end
  end.

Definition optional (cs : list ascii) (l : list ascii) : option ascii * list ascii :=
  match l with
  | c :: rest => if one_of cs c then (Some c, rest) else (None, l)
  | [] => (None, l)
  end.

Definition again (sep : option ascii) (l : list ascii) : list ascii :=
  match sep, l with
  | Some s, c :: rest => if Ascii.eqb c s then rest else l
  | _, _ => l
  end.

Definition closing (c : ascii) : ascii :=
  if Ascii.eqb c "[" then "]"%char
  else if Ascii.eqb c "{" then "}"%char
  else ")"%char.

Definition guid (s : string) : bool :=
  let (opening, l0) := optional ["["; "{"; "("]%char (list_ascii_of_string s) in
  match take_hex 8 l0 with
  | None => false
  | Some l1 =>
      let (sep, l2) := optional [":"; "-"]%char l1 in
      match take_hex 4 l2 with
      | None => false
      | Some l3 =>
          match take_hex 4 (again sep l3) with
          | None => false
          | Some l4 =>
              match take_hex 4 (again sep l4) with
              | None => false
              | Some l5 =>
                  match take_hex 12 (again sep l5) with
                  | None => false
                  | Some l6 =>
                      match opening, l6 with
                      | None, [] => true
                      | Some o, [c] => Ascii.eqb c (closing o)
                      | _, _ => false
                      end
                  end
              end
          end
      end
  end.

(** *** ASCII text

    The strings on which the model's length and case conversion are
    those of JavaScript: every character is below 128. *)
Definition ascii_text (s : string) : bool :=
  forallb (fun c => N.ltb (code c) 128) (list_ascii_of_string s).

(** *** [string().uppercase()] under [convert]

    Joi replaces the value by [value.toLocaleUpperCase()].  On ASCII text
    that is the map of a to z onto A to Z, every other character kept
    (in the locale of the Lambda runtime, and in every locale but the
    Turkic ones, where i has a capital of its own); [upper] is this map
    and stands for the conversion on ASCII text only: it neither grows a
    sharp s into two letters nor touches a character above 127. *)
Definition upper_char (c : ascii) : ascii :=
  if between "a" "z" c then ascii_of_N (code c - 32) else c.

Fixpoint upper (s : string) : string :=
  match s with
  | EmptyString => EmptyString
  | String c rest => String (upper_char c) (upper rest)
  end.

(** *** [number()] read from a string

    Joi converts a string that is, between optional white space, an
    optional sign, then digits with an optional fraction part or a dot
    followed by digits, then an optional exponent [e] with an optional
    sign and digits.  The literal is given its exact value; a literal
    that a double cannot hold exactly is no integer in the safe range. *)
Definition is_space (c : ascii) : bool :=
  (between (ascii_of_nat 9) (ascii_of_nat 13) c || Ascii.eqb c " ")%bool.

Fixpoint drop_while (p : ascii -> bool) (l : list ascii) : list ascii :=
  match l with
  | c :: rest => if p c then drop_while p rest else l
  | [] => []
  end.

Fixpoint take_while (p : ascii -> bool) (l : list ascii) : list ascii :=
  match l with
  | c :: rest => if p c then c :: take_while p rest else []
  | [] => []
  end.

Definition digits_value (ds : list ascii) : Z :=
  fold_left (fun acc c => 10 * acc + Z.of_N (code c - 48)) ds 0.

Definition sign (l : list ascii) : bool * list ascii :=
  match l with
  | c :: rest =>
      if Ascii.eqb c "-" then (true, rest)
      else if Ascii.eqb c "+" then (false, rest)
      else (false, l)
  | [] => (false, l)
  end.

Definition nonempty {A : Type} (l : list A) : bool :=
  match l with [] => false | _ :: _ => true end.

Definition coerce_number (s : string) : option Q :=
  let (negative, l1) := sign (drop_while is_space (list_ascii_of_string s)) in
  let whole := take_while is_digit l1 in
  let l2 := drop_while is_digit l1 in
  let '(fraction, l3, mantissa) :=
    match l2 with
    | c :: rest =>
        if Ascii.eqb c "."
        then (take_while is_digit rest, drop_while is_digit rest,
              (nonempty whole || nonempty (take_while is_digit rest))%bool)
        else ([], l2, nonempty whole)
    | [] => ([], l2, nonempty whole)
    end in
  let '(exponent, l4, exponent_ok) :=
    match l3 with
    | c :: rest =>
        if one_of ["e"; "E"]%char c
        then let (eneg, l) := sign rest in
             let ds := take_while is_digit l in
             ((if eneg then - digits_value ds else digits_value ds)%Z,
              drop_while is_digit l, nonempty ds)
        else (0%Z, l3, true)
    | [] => (0%Z, l3, true)
    end in
  if (mantissa && exponent_ok && negb (nonempty (drop_while is_space l4)))%bool
  then
    let m := (inject_Z (digits_value whole)
              + inject_Z (digits_value fraction)
                / inject_Z (10 ^ Z.of_nat (List.length fraction)))%Q in
    let v := (m * Qpower (inject_Z 10) exponent)%Q in
    Some (if negative then Qopp v else v)
  else None.

Definition to_number (v : JsValue) : option Q :=
  match v with
  | JNum q => Some q
  | JStr s => coerce_number s
  | _ => None
  end.

(** [Number.MAX_SAFE_INTEGER]. *)
Definition MAX_SAFE_INTEGER : Z := 9007199254740991.

Definition unsafe (q : Q) : bool :=
  (negb (Qle_bool q (inject_Z MAX_SAFE_INTEGER))
   || negb (Qle_bool (inject_Z (- MAX_SAFE_INTEGER)) q))%bool.

Definition is_integer (q : Q) : bool := Qeq_bool (inject_Z (Qfloor q)) q.

(** *** Schemas *)

Inductive StringRule := Uuid | MaxLength (limit : nat) | Length (limit : nat) | Uppercase.
Inductive NumberRule := Integer | Min (limit : Z) | Max (limit : Z).

Inductive Type_ :=
| string_ (rules : list StringRule)
| number_ (rules : list NumberRule)
| object_.

(** A key of an object schema: its type and rules, whether it is
    [required()], and its [default()] ([JUndefined] without one). *)
Record Key := mkKey {
  type : Type_;
  required : bool;
  default : JsValue
}.

(** The rules see the converted value.  [max] and [length] compare
    [value.length], the number of UTF-16 code units, which on ASCII text
    is [String.length]. *)
Definition string_rule (l : string) (s : string) (r : StringRule) : option string :=
  match r with
  | Uuid => if guid s then None else Some (l ++ " must be a valid GUID")
  | MaxLength n =>
      if Nat.leb (String.length s) n then None
      else Some (l ++ " length must be less than or equal to "
                   ++ decimal (Z.of_nat n) ++ " characters long")
  | Length n =>
      if Nat.eqb (String.length s) n then None
      else Some (l ++ " length must be " ++ decimal (Z.of_nat n) ++ " characters long")
  | Uppercase => None   (* the value has been converted *)
  end.

Definition number_rule (l : string) (q : Q) (r : NumberRule) : option string :=
  match r with
  | Integer => if is_integer q then None else Some (l ++ " must be an integer")
  | Min n =>
      if Qle_bool (inject_Z n) q then None
      else Some (l ++ " must be greater than or equal to " ++ decimal n)
  | Max n =>
      if Qle_bool q (inject_Z n) then None
      else Some (l ++ " must be less than or equal to " ++ decimal n)
  end.

(** The rules of a key run in the order they were declared; with
    [abortEarly] the first failure ends the validation. *)
Fixpoint check_rules {R : Type} (abortEarly : bool) (test : R -> option string)
         (rules : list R) : list string :=
  match rules with
  | [] => []
  | r :: rest =>
      match test r with
      | Some m => if abortEarly then [m] else m :: check_rules abortEarly test rest
      | None => check_rules abortEarly test rest
      end
  end.

Definition converts_upper (rules : list StringRule) : bool :=
  existsb (fun r => match r with Uppercase => true | _ => false end) rules.

(** One key: the converted value and the messages of its violations. *)
Definition check_value (abortEarly : bool) (k : string) (key : Key) (v : JsValue)
  : JsValue * list string :=
  match v with
  | JUndefined =>
      if required key then (v, [label k ++ " is required"]) else (default key, [])
  | _ =>
      match type key with
      | string_ rules =>
          match v with
          | JStr s =>
              if String.eqb s "" then (v, [label k ++ " is not allowed to be empty"])
              else
                let s' := if converts_upper rules then upper s else s in
                (JStr s', check_rules abortEarly (string_rule (label k) s') rules)
          | _ => (v, [label k ++ " must be a string"])
          end
      | number_ rules =>
          match to_number v with
          | Some q =>
              if unsafe q then (v, [label k ++ " must be a safe number"])
              else (JNum q, check_rules abortEarly (number_rule (label k) q) rules)
          | None => (v, [label k ++ " must be a number"])
          end
      | object_ =>
          match v with
          | JObj _ => (v, [])
          | _ => (v, [label k ++ " must be of type object"])
          end
      end
  end.

(** The keys of an object schema, in the order of the schema; a key
    whose value stays [undefined] is not part of the result. *)
Fixpoint check_keys (abortEarly : bool) (schema : list (string * Key)) (obj : JsValue)
  : list (string * JsValue) * list string :=
  match schema with
  | [] => ([], [])
  | (k, key) :: rest =>
      let (v, errs) := check_value abortEarly k key (prop k obj) in
      if (abortEarly && nonempty errs)%bool then ([], errs)
      else
        let (vs, errs') := check_keys abortEarly rest obj in
        ((match v with JUndefined => vs | _ => (k, v) :: vs end),
         (errs ++ errs')%list)
  end.

Definition known (schema : list (string * Key)) (k : string) : bool :=
  existsb (fun entry => String.eqb k (fst entry)) schema.

Definition unknown_key (schema : list (string * Key)) (k : string) : option string :=
  if known schema k then None else Some (label k ++ " is not allowed").

(** [{ error, value }]: [error] is [None] for Joi's [undefined],
    otherwise it holds [error.details.map(d => d.message)]; [value] is
    [None] for [undefined]. *)
Record Result := mkResult {
  error : option (list string);
  value : option (list (string * JsValue))
}.

(** [Joi.object(schema).validate(input, { abortEarly })]. *)
Definition validateWith (abortEarly : bool) (schema : list (string * Key))
           (input : JsValue) : Result :=
  match input with
  | JUndefined => mkResult None None
  | JObj _ =>
      let (vs, errs) := check_keys abortEarly schema input in
      let errs' :=
        if (abortEarly && nonempty errs)%bool then errs
        else (errs ++ check_rules abortEarly (unknown_key schema) (keys input))%list in
      mkResult (if nonempty errs' then Some errs' else None) (Some vs)
  | _ => mkResult (Some [label "value" ++ " must be of type object"]) None
  end.

(** [schema.validate(input)]: Joi stops at the first violation unless
    told otherwise. *)
Definition validate := validateWith true.

End Joi.

(** handler.js 36-44. *)
Definition purchaseSchema : list (string * Joi.Key) :=
  [ ("player_id",   Joi.mkKey (Joi.string_ [Joi.Uuid]) true JUndefined);
    ("item_id",     Joi.mkKey (Joi.string_ []) true JUndefined);
    ("item_name",   Joi.mkKey (Joi.string_ [Joi.MaxLength 255]) true JUndefined);
    ("price_cents", Joi.mkKey (Joi.number_ [Joi.Integer; Joi.Min 1; Joi.Max 99999999])
                              true JUndefined);
    ("currency",    Joi.mkKey (Joi.string_ [Joi.Length 3; Joi.Uppercase]) true JUndefined);
    ("quantity",    Joi.mkKey (Joi.number_ [Joi.Integer; Joi.Min 1; Joi.Max 100])
                              false (JNum 1));
    ("metadata",    Joi.mkKey Joi.object_ false JUndefined) ].

(** The accepted value, read at the types [processPurchase] uses it at. *)
Definition text (v : JsValue) : string :=
  match v with JStr s => s | _ => "" end.

Definition integer (v : JsValue) : Z :=
  match v with JNum q => Qfloor q | _ => 0 end.

Definition purchase_of (fields : list (string * JsValue)) : Purchase.data :=
  let v := JObj fields in
  Purchase.mk (text (prop "player_id" v))
              (text (prop "item_id" v))
              (text (prop "item_name" v))
              (integer (prop "price_cents" v))
              (text (prop "currency" v))
              (integer (prop "quantity" v))
              (prop "metadata" v).

(** ** handler.js 224-310: the Lambda entry point *)

(** [event.body]: a string goes through [JSON.parse] ([parsed] is what it
    yields, [None] when it throws), anything else is used as it is. *)
Inductive EventBody :=
| BodyText (parsed : option JsValue)
| BodyValue (v : JsValue).

(** The fields of the event the handler can see; [rc_method] and [rc_path]
    are [event.requestContext?.http?.method] and [...?.path]. *)
Record Event := mkEvent {
  httpMethod : option string;
  path : option string;
  rc_method : option string;
  rc_path : option string;
  body : EventBody;
  queryStringParameters : list (string * string)
}.

Record Response := mkResponse {
  statusCode : Z;
  headers : list (string * string);
  payload : JsValue     (* the value given to [JSON.stringify] *)
}.

Definition json (status : Z) (v : JsValue) : Response :=
  mkResponse status [("Content-Type", "application/json")] v.

(** [a || b] on values that are a string or [undefined]. *)
Definition or_else (a b : option string) : option string :=
  match a with
  | Some s => if String.eqb s "" then b else a
  | None => b
  end.

Definition equals (expected : string) (v : option string) : bool :=
  match v with
  | Some s => String.eqb s expected
  | None => false
  end.

(** [s.split(sep)] for a one-character separator. *)
Fixpoint split (sep : ascii) (s : string) : list string :=
  match s with
  | EmptyString => [EmptyString]
  | String c rest =>
      if Ascii.eqb c sep then EmptyString :: split sep rest
      else match split sep rest with
           | h :: t => String c h :: t
           | [] => [String c EmptyString]
           end
  end.

(** [path?.startsWith(prefix)]. *)
Definition startsWith (prefix : string) (v : option string) : bool :=
  match v with
  | Some s => String.prefix prefix s
  | None => false
  end.

(** handler.js 232-234. *)
Definition parseBody (event : Event) : Js JsValue :=
  match body event with
  | BodyText (Some v) => ret v
  | BodyText None => raise (SyntaxError "Unexpected token in JSON")
  | BodyValue v => ret v
  end.

(** handler.js 237-238. *)
Definition method_of (event : Event) : option string :=
  or_else (httpMethod event) (rc_method event).

Definition path_of (event : Event) : option string :=
  or_else (path event) (rc_path event).

(** [path.split('/')[2]]. *)
Definition playerId_of (path : option string) : option string :=
  nth_error (split "/" (match path with Some s => s | None => "" end)) 2.

(** The handler.  Its logging and the flag it sets on the Lambda context
    bear on neither the response nor the store and are left out. *)
Definition handler (event : Event) : Js Response :=
  catch
    (body <- parseBody event ;;
     let method := method_of event in
     let path := path_of event in
     if (equals "POST" method && equals "/purchase" path)%bool then
       let validation := Joi.validate purchaseSchema body in
       match Joi.error validation with
       | Some details =>
           ret (json 400 (JObj [ ("error", JStr "Validation failed");
                                 ("details", JArr (map JStr details)) ]))
       | None =>
           result <- processPurchase (option_map purchase_of (Joi.value validation)) ;;
           ret (json 201 result)
       end
     else if (equals "GET" method && startsWith "/transactions/" path)%bool then
       match playerId_of path with
       | None | Some EmptyString =>
           ret (json 400 (JObj [ ("error", JStr "Player ID required") ]))
       | Some playerId =>
           transactions <- getPlayerTransactions playerId None ;;
           ret (json 200 (JObj [ ("transactions", JArr (map Tx.to_js transactions)) ]))
       end
     else
       ret (json 404 (JObj [ ("error", JStr "Not found") ])))
    (fun error =>
       dev <- read development ;;
       ret (json 500 (JObj [ ("error", JStr "Internal server error");
                             ("message", JStr (if dev : bool then error_message error
                                               else "An unexpected error occurred")) ]))).

(** ** handler.js 316-333: [healthHandler] *)

Definition healthHandler : Js Response :=
  catch
    (_ <- getDbClient ;;
     query QSelect1 ;;
     timestamp <- now_iso ;;
     ret (mkResponse 200 [] (JObj [ ("status", JStr "healthy");
                                    ("timestamp", JIso timestamp) ])))
    (fun error =>
       ret (mkResponse 503 [] (JObj [ ("status", JStr "unhealthy");
                                      ("error", JStr (error_message error)) ]))).

(** ** Observations and example data *)

(** A world is quiet when the environment rejects none of the operations
    to come. *)
Definition quiet (w : World) : Prop := forallb negb (faults w) = true.

(** The world [processPayment] leaves behind. *)
Definition paid (p : Payment.data) (w : World) : World :=
  set_uuid_seed (N.succ (uuid_seed w))
    (set_clock (clock w + 50)
       (set_authorized (authorized w ++ [p]) w)).

(** The status the pipeline settles on for a purchase. *)
Definition final_status (d : Purchase.data) : TransactionStatus :=
  if Z.ltb (Purchase.price_cents d) 100000 then COMPLETED else FAILED.

(** The request handed to the payment processor for a purchase. *)
Definition payment_of (d : Purchase.data) : Payment.data :=
  Payment.mk (Purchase.price_cents d) (Purchase.currency d) (Purchase.player_id d).

(** The object [processPurchase] returns (handler.js 158-170). *)
Definition response_of (id : string) (d : Purchase.data) : JsValue :=
  JObj [ ("transactionId", JStr id);
         ("status", JStr (status_text (final_status d)));
         ("item", JObj [ ("id", JStr (Purchase.item_id d));
                         ("name", JStr (Purchase.item_name d));
                         ("quantity", JNum (inject_Z (Purchase.quantity d))) ]);
         ("payment", JObj [ ("amount", JNum (inject_Z (Purchase.price_cents d)));
                            ("currency", JStr (Purchase.currency d)) ]) ].

(** The row of the [INSERT] and the statement of the finalize step, for a
    purchase that enters the [try] block in world [w]. *)
Definition pending_row (d : Purchase.data) (w : World) : Tx.row :=
  Tx.mk (uuid_of_seed (uuid_seed w)) (Purchase.player_id d) (Purchase.item_id d)
        (Purchase.item_name d) (Purchase.price_cents d) (Purchase.currency d)
        (Purchase.quantity d) PENDING None
        (metadata_or_empty (Purchase.metadata d)) (clock w) (clock w).

Definition stored_row (d : Purchase.data) (w : World) : Tx.row :=
  Tx.set_status (final_status d) (clock w + 50) (pending_row d w).


(** [error.details.map(d => d.message)], empty without an error. *)
Definition details (r : Joi.Result) : list string :=
  match Joi.error r with Some l => l | None => [] end.

(** [created_at DESC]. *)
Definition newer_first (a b : Tx.row) : Prop := Tx.created_at b <= Tx.created_at a.

(** The response of the handler's [catch] (handler.js 294-309). *)
Definition internal_error (e : JsError) (w : World) : Response :=
  json 500 (JObj [ ("error", JStr "Internal server error");
                   ("message", JStr (if development w then error_message e
                                     else "An unexpected error occurred")) ]).

(** The requests routed to the history read (handler.js 265). *)
Definition history_route (event : Event) : Prop :=
  equals "GET" (method_of event) = true /\
  startsWith "/transactions/" (path_of event) = true.

(** The same event with other query-string parameters. *)
Definition with_query (qs : list (string * string)) (event : Event) : Event :=
  mkEvent (httpMethod event) (path event) (rc_method event) (rc_path event)
          (body event) qs.

(** *** Example data *)

Definition alice : string := "550e8400-e29b-41d4-a716-446655440000".

Definition fresh_world : World :=
  mkWorld None [] None [] [] 0 1700000000000 [] false.

(** The connection and the first two statements are accepted, the third
    statement (the finalize [UPDATE]) is rejected. *)
Definition faulty_world : World :=
  set_faults [false; false; false; true] fresh_world.

Definition sword : Purchase.data :=
  Purchase.mk alice "sword_1" "Sword" 1999 "USD" 1 JUndefined.

Definition castle : Purchase.data :=
  Purchase.mk alice "castle_1" "Castle" 100000 "USD" 1 JUndefined.

(** [price_cents = 0], [quantity = 0], [currency = "US"] and a
    [player_id] that is no UUID. *)
Definition broken_body : JsValue :=
  JObj [ ("player_id", JStr "not-a-uuid");
         ("item_id", JStr "sword_1");
         ("item_name", JStr "Sword");
         ("price_cents", JNum 0);
         ("currency", JStr "US");
         ("quantity", JNum 0) ].

Definition broken_purchase : Event :=
  mkEvent (Some "POST") (Some "/purchase") None None (BodyValue broken_body) [].

Definition history_of_alice : Event :=
  mkEvent (Some "GET") (Some (String.append "/transactions/" alice)) None None (BodyValue JNull)
          [("limit", "5000"); ("cursor", "00000000-0000-4000-8000-000000000000")].

(** [n] purchases of one player, the oldest first. *)
Definition purchases (playerId : string) (n : nat) : list Tx.row :=
  map (fun i => Tx.mk (uuid_of_seed (N.of_nat i)) playerId "sword_1" "Sword" 1999 "USD" 1
                      COMPLETED None (JObj []) (Z.of_nat i) (Z.of_nat i))
      (seq 0 n).

Definition world_with (rows : list Tx.row) : World :=
  mkWorld None rows None [] [] (N.of_nat (List.length rows)) 1700000000000 [] false.

(** *** Further observations *)

(** A purchase request whose fields have the types the schema asks for,
    as the body the handler receives; [quantity] may be left out. *)
Definition body_of (player item name currency : string) (price : Z)
           (quantity : option Z) : JsValue :=
  JObj ([ ("player_id", JStr player); ("item_id", JStr item); ("item_name", JStr name);
          ("price_cents", JNum (inject_Z price)); ("currency", JStr currency) ]
        ++ match quantity with
           | Some n => [("quantity", JNum (inject_Z n))]
           | None => []
           end).

(** The constraints of [purchaseSchema] (handler.js 37-42) on such a
    request; the two lengths are those Joi measures when the name and the
    currency are ASCII text. *)
Definition well_formed (player item name currency : string) (price : Z)
           (quantity : option Z) : bool :=
  (Joi.guid player
   && negb (String.eqb item "")
   && negb (String.eqb name "") && Nat.leb (String.length name) 255
   && Z.leb 1 price && Z.leb price 99999999
   && Nat.eqb (String.length currency) 3
   && match quantity with
      | Some n => Z.leb 1 n && Z.leb n 100
      | None => true
      end)%bool.

(** Whether the schema has the key and marks it [required()]. *)
Definition required_key (schema : list (string * Joi.Key)) (k : string) : bool :=
  existsb (fun entry => (String.eqb k (fst entry) && Joi.required (snd entry))%bool)
          schema.

(** Whether a text has a slash. *)
Fixpoint has_slash (s : string) : bool :=
  match s with
  | EmptyString => false
  | String c rest => (Ascii.eqb c "/" || has_slash rest)%bool
  end.

(** A world whose client is connected and cached. *)
Definition warm_world : World :=
  mkWorld (Some {| _ending := false |}) (purchases alice 3) None [] [] 3
          1700000000000 [] false.

Definition sword_body : JsValue := body_of alice "sword_1" "Sword" "usd" 1999 None.

Definition sword_purchase : Event :=
  mkEvent (Some "POST") (Some "/purchase") None None (BodyValue sword_body) [].

(** A purchase request without a body, and one whose body is no JSON. *)
Definition empty_purchase : Event :=
  mkEvent (Some "POST") (Some "/purchase") None None (BodyValue JUndefined) [].

Definition malformed_purchase : Event :=
  mkEvent (Some "POST") (Some "/purchase") None None (BodyText None) [].

(** * Properties *)

Arguments next_fault : simpl never.
Arguments uuid_of_seed : simpl never.

Ltac run_js := cbn -[Z.ltb Z.add N.succ].

(** ** The payment processor *)

Lemma processPayment_run (p : Payment.data) (w : World) :
  processPayment p w =
  (Return (JObj ([ ("success", JBool (Z.ltb (Payment.amount p) 100000));
                   ("processorId", JStr (uuid_of_seed (uuid_seed w)));
                   ("timestamp", JIso (clock w + 50)) ]
                 ++ (if Z.ltb (Payment.amount p) 100000 then []
                     else [("error", JStr "Payment declined")]))),
   paid p w).
Proof. reflexivity. Qed.

(** C10.  The success flag of the payment result depends on the amount
    alone: two payment requests with the same amount get the same flag,
    whatever their currency, their player and the world they run in, and
    the flag is [amount < 100000]. *)
Theorem success_depends_on_amount_only (p1 p2 : Payment.data) (w1 w2 : World) :
  Payment.amount p1 = Payment.amount p2 ->
  exists v1 v2,
    fst (processPayment p1 w1) = Return v1 /\
    fst (processPayment p2 w2) = Return v2 /\
    prop "success" v1 = prop "success" v2 /\
    prop "success" v1 = JBool (Z.ltb (Payment.amount p1) 100000).
Proof.
  intros H. rewrite !processPayment_run. cbn [fst].
  do 2 eexists. split; [reflexivity|]. split; [reflexivity|].
  rewrite H. split; reflexivity.
Qed.

Lemma success_depends_on_amount_only_witness :
  Payment.amount (Payment.mk 1999 "USD" alice) = Payment.amount (Payment.mk 1999 "EUR" "bob") /\
  exists v1 v2,
    fst (processPayment (Payment.mk 1999 "USD" alice) fresh_world) = Return v1 /\
    fst (processPayment (Payment.mk 1999 "EUR" "bob") faulty_world) = Return v2 /\
    prop "success" v1 = prop "success" v2 /\
    prop "success" v1 = JBool (Z.ltb (Payment.amount (Payment.mk 1999 "USD" alice)) 100000).
Proof.
  split; [reflexivity|].
  apply (success_depends_on_amount_only
           (Payment.mk 1999 "USD" alice) (Payment.mk 1999 "EUR" "bob")
           fresh_world faulty_world).
  reflexivity.
Defined.

(** C4, as the code has it.  Every payment result carries a processor
    reference; it carries the failure reason ['Payment declined'] exactly
    when the success flag is false.  So a success has a reference and no
    reason, a failure has a reason and a reference as well, and no result
    has neither. *)
Theorem payment_result_shape (p : Payment.data) (w : World) :
  exists v,
    fst (processPayment p w) = Return v /\
    prop "success" v = JBool (Z.ltb (Payment.amount p) 100000) /\
    prop "processorId" v = JStr (uuid_of_seed (uuid_seed w)) /\
    hasProp "error" v = negb (Z.ltb (Payment.amount p) 100000) /\
    prop "error" v = (if Z.ltb (Payment.amount p) 100000
                      then JUndefined else JStr "Payment declined").
Proof.
  rewrite processPayment_run. cbn [fst]. eexists. split; [reflexivity|].
  destruct (Z.ltb (Payment.amount p) 100000); cbn; auto.
Qed.

(** C4, counterexample.  A declined payment of 100000 cents carries the
    failure reason and a processor reference at once. *)
Lemma declined_payment_keeps_processor_id :
  exists v w',
    processPayment (payment_of castle) fresh_world = (Return v, w') /\
    prop "success" v = JBool false /\
    hasProp "error" v = true /\
    hasProp "processorId" v = true /\
    prop "processorId" v = JStr "00000000-0000-4000-8000-000000000000".
Proof.
  do 2 eexists. split; [rewrite processPayment_run; reflexivity|].
  vm_compute. auto.
Qed.

(** ** Runs in a quiet world *)

Lemma next_fault_quiet (w : World) :
  quiet w ->
  exists f, next_fault w = (false, set_faults f w) /\ forallb negb f = true.
Proof.
  destruct w as [c r s f q u t a d]. unfold quiet, next_fault; cbn.
  intros H. destruct f as [|b f].
  - exists []. split; reflexivity.
  - cbn in H. apply andb_prop in H. destruct H as [Hb Hf].
    destruct b; [discriminate|]. exists f. split; [reflexivity | exact Hf].
Qed.

Ltac accept H :=
  match goal with
  | |- context [next_fault ?W] =>
      let f := fresh "f" in
      let E := fresh "E" in
      let H' := fresh "Hq" in
      destruct (next_fault_quiet W H) as (f & E & H');
      rewrite E; clear E; clear H; rename H' into H
  end.

Lemma getDbClient_quiet (w : World) :
  quiet w ->
  exists c w1, getDbClient w = (Return c, w1) /\ quiet w1 /\
    committed w1 = committed w /\ authorized w1 = authorized w /\
    uuid_seed w1 = uuid_seed w /\ clock w1 = clock w.
Proof.
  destruct w as [c r s f q u t a d]. intros H. unfold quiet in H; cbn in H.
  unfold getDbClient. run_js.
  destruct c as [[[|]]|]; run_js.
  - unfold connect. accept H. run_js. do 2 eexists. split; [reflexivity|].
    repeat split; assumption.
  - unfold query. run_js. accept H. run_js.
    do 2 eexists. split; [reflexivity|]. repeat split; assumption.
  - unfold connect. accept H. run_js. do 2 eexists. split; [reflexivity|].
    repeat split; assumption.
Qed.

Lemma in_updated (s : TransactionStatus) (t : Instant) (r : Tx.row) (l : list Tx.row) :
  In (Tx.set_status s t r)
     (map (fun x => if String.eqb (Tx.transaction_id x) (Tx.transaction_id r)
                    then Tx.set_status s t x else x) (l ++ [r])).
Proof.
  rewrite map_app. apply in_or_app. right. cbn.
  rewrite String.eqb_refl. left. reflexivity.
Qed.

Lemma processPurchase_try_quiet (d : Purchase.data) (w : World) :
  quiet w ->
  exists w',
    processPurchase_try (Some d) w
    = (Return (response_of (uuid_of_seed (uuid_seed w)) d), w') /\
    quiet w' /\
    authorized w' = authorized w ++ [payment_of d] /\
    session w' = None /\
    In (stored_row d w) (committed w').
Proof.
  destruct w as [c r s f q u t a dv]. intros H. unfold quiet in H; cbn in H.
  unfold processPurchase_try, query, processPayment, response_of, stored_row,
    pending_row, final_status.
  run_js. accept H.
  destruct s as [rows|]; run_js; accept H; run_js;
    destruct (Z.ltb (Purchase.price_cents d) 100000);
    run_js; accept H; run_js; accept H; run_js;
    eexists; (split; [reflexivity|]); (split; [exact H|]); (split; [reflexivity|]);
    (split; [reflexivity|]); run_js;
    match goal with |- In _ (map _ (?l ++ [?r0])) =>
      exact (in_updated _ _ r0 l) end.
Qed.

Lemma processPurchase_quiet (d : Purchase.data) (w : World) :
  quiet w ->
  exists w',
    processPurchase (Some d) w
    = (Return (response_of (uuid_of_seed (uuid_seed w)) d), w') /\
    authorized w' = authorized w ++ [payment_of d] /\
    In (stored_row d w) (committed w').
Proof.
  intros H.
  destruct (getDbClient_quiet w H) as (c & w1 & E1 & H1 & _ & Ha & Hu & Ht).
  destruct (processPurchase_try_quiet d w1 H1) as (w2 & E2 & _ & Ha2 & _ & Hin).
  exists w2. unfold processPurchase. cbn [bind catch Monad_Js MonadExc_Js].
  rewrite E1, E2. unfold stored_row, pending_row in *.
  rewrite <- Hu, <- Ht, <- Ha. auto.
Qed.

(** ** What statements and connections leave alone *)

Lemma query_authorized (q : Query) (w : World) :
  authorized (snd (query q w)) = authorized w.
Proof.
  destruct w as [c r s f l u t a d]. unfold query, next_fault; cbn.
  destruct f as [|[|] f]; cbn; try reflexivity;
    destruct q; cbn; try reflexivity; destruct s; reflexivity.
Qed.

Lemma getDbClient_authorized (w : World) :
  authorized (snd (getDbClient w)) = authorized w.
Proof.
  destruct w as [c r s f l u t a d]. unfold getDbClient, connect, query, next_fault; cbn.
  destruct c as [[[|]]|]; cbn; destruct f as [|[|] f]; cbn; try reflexivity;
    destruct f as [|[|] f]; reflexivity.
Qed.

Lemma getDbClient_committed (w : World) :
  committed (snd (getDbClient w)) = committed w.
Proof.
  destruct w as [c r s f l u t a d]. unfold getDbClient, connect, query, next_fault; cbn.
  destruct c as [[[|]]|]; cbn; destruct f as [|[|] f]; cbn; try reflexivity;
    destruct f as [|[|] f]; reflexivity.
Qed.

Ltac step_query :=
  match goal with
  | |- context [query ?q ?w] =>
      let H := fresh "Hq" in
      pose proof (query_authorized q w) as H;
      destruct (query q w) as [[?|?] ?]; cbn -[Z.ltb Z.add N.succ] in H |- *
  end.

Lemma processPurchase_authorized (pd : option Purchase.data) (w : World) :
  authorized (snd (processPurchase pd w)) = authorized w \/
  exists d, pd = Some d /\
            authorized (snd (processPurchase pd w)) = authorized w ++ [payment_of d].
Proof.
  unfold processPurchase. cbn [bind catch Monad_Js MonadExc_Js].
  pose proof (getDbClient_authorized w) as H0.
  destruct (getDbClient w) as [[c|e] w1]; cbn [snd] in H0; [|left; exact H0].
  unfold processPurchase_try, processPayment. cbn -[Z.ltb Z.add N.succ].
  step_query; [|step_query; left; congruence].
  destruct pd as [d|]; cbn -[Z.ltb Z.add N.succ];
    [|step_query; left; congruence].
  step_query; [|step_query; left; congruence].
  assert (Hlog : forall l : list Payment.data,
             l = authorized w ++ [payment_of d] ->
             l = authorized w \/
             exists d0, Some d = Some d0 /\ l = authorized w ++ [payment_of d0])
    by (intros l Hl; right; exists d; split; [reflexivity | exact Hl]).
  unfold payment_of in Hlog.
  destruct (Z.ltb (Purchase.price_cents d) 100000); cbn -[Z.ltb Z.add N.succ].
  - step_query; [|step_query; apply Hlog; congruence].
    step_query; [|step_query]; apply Hlog; congruence.
  - step_query; [|step_query; apply Hlog; congruence].
    step_query; [|step_query]; apply Hlog; congruence.
Qed.

(** ** The purchase pipeline *)

(** C2, as the code has it.  When the store rejects no operation,
    [processPurchase] returns status [completed] for a price below 100000
    cents and [failed] from 100000 cents on; in both cases the response
    has the four properties [transactionId], [status], [item] and
    [payment], its [payment] holds [amount] and [currency] only, and the
    row it leaves in the store has the same status and no processor id. *)
Theorem purchase_status_follows_price (d : Purchase.data) (w : World) :
  quiet w ->
  exists v w',
    processPurchase (Some d) w = (Return v, w') /\
    prop "status" v = JStr (if Z.ltb (Purchase.price_cents d) 100000
                            then "completed" else "failed") /\
    keys v = ["transactionId"; "status"; "item"; "payment"] /\
    keys (prop "payment" v) = ["amount"; "currency"] /\
    exists r,
      In r (committed w') /\
      JStr (Tx.transaction_id r) = prop "transactionId" v /\
      Tx.status r = (if Z.ltb (Purchase.price_cents d) 100000
                     then COMPLETED else FAILED) /\
      Tx.processor_id r = None.
Proof.
  intros H. destruct (processPurchase_quiet d w H) as (w' & E & _ & Hin).
  exists (response_of (uuid_of_seed (uuid_seed w)) d), w'.
  split; [exact E|]. unfold response_of, final_status.
  split; [destruct (Z.ltb (Purchase.price_cents d) 100000); reflexivity|].
  split; [reflexivity|]. split; [reflexivity|].
  exists (stored_row d w). split; [exact Hin|]. repeat split.
Qed.

Lemma purchase_status_follows_price_witness :
  quiet fresh_world /\
  exists v w',
    processPurchase (Some castle) fresh_world = (Return v, w') /\
    prop "status" v = JStr (if Z.ltb (Purchase.price_cents castle) 100000
                            then "completed" else "failed") /\
    keys v = ["transactionId"; "status"; "item"; "payment"] /\
    keys (prop "payment" v) = ["amount"; "currency"] /\
    exists r,
      In r (committed w') /\
      JStr (Tx.transaction_id r) = prop "transactionId" v /\
      Tx.status r = (if Z.ltb (Purchase.price_cents castle) 100000
                     then COMPLETED else FAILED) /\
      Tx.processor_id r = None.
Proof.
  split; [reflexivity|].
  apply (purchase_status_follows_price castle fresh_world). reflexivity.
Defined.

(** C2, counterexample.  A valid purchase of 1999 cents in a store without
    faults completes, and the response has no processor id under any
    name, neither at the top nor inside [payment]. *)
Lemma completed_purchase_has_no_processor_id :
  exists v w',
    processPurchase (Some sword) fresh_world = (Return v, w') /\
    prop "status" v = JStr "completed" /\
    prop "processor_id" v = JUndefined /\
    prop "processorId" v = JUndefined /\
    prop "processor_id" (prop "payment" v) = JUndefined /\
    prop "processorId" (prop "payment" v) = JUndefined /\
    map Tx.processor_id (committed w') = [None].
Proof.
  do 2 eexists. split; [vm_compute; reflexivity|]. vm_compute. auto 10.
Qed.

(** C7.  Whatever the store does, a run of [processPurchase] hands the
    payment processor nothing or exactly one request, and that request
    carries the purchase's [price_cents] as its amount, not multiplied by
    the quantity; when the store rejects no operation the request is
    made. *)
Theorem authorized_amount_is_price_cents (d : Purchase.data) (w : World) :
  (authorized (snd (processPurchase (Some d) w)) = authorized w \/
   authorized (snd (processPurchase (Some d) w))
   = authorized w ++ [Payment.mk (Purchase.price_cents d) (Purchase.currency d)
                                 (Purchase.player_id d)]) /\
  (quiet w ->
   authorized (snd (processPurchase (Some d) w))
   = authorized w ++ [Payment.mk (Purchase.price_cents d) (Purchase.currency d)
                                 (Purchase.player_id d)]).
Proof.
  split.
  - destruct (processPurchase_authorized (Some d) w) as [H|(d0 & Hd & H)].
    + left. exact H.
    + right. injection Hd as <-. exact H.
  - intros H. destruct (processPurchase_quiet d w H) as (w' & E & Ha & _).
    rewrite E. exact Ha.
Qed.

Lemma authorized_amount_is_price_cents_witness :
  quiet fresh_world /\
  authorized (snd (processPurchase
                     (Some (Purchase.mk alice "potion_1" "Potion" 60000 "USD" 2 JUndefined))
                     fresh_world))
  = [Payment.mk 60000 "USD" alice].
Proof.
  split; [reflexivity|].
  apply (proj2 (authorized_amount_is_price_cents
                  (Purchase.mk alice "potion_1" "Potion" 60000 "USD" 2 JUndefined)
                  fresh_world)).
  reflexivity.
Defined.




(** When the [ROLLBACK] is rejected as well, the error thrown is that of
    the [ROLLBACK]: nothing is durable, and the connection is left inside
    the transaction, the row of the [INSERT] still pending in it. *)
Lemma rejected_rollback_leaves_transaction_open :
  exists w',
    processPurchase (Some sword)
                    (set_faults [false; false; false; true; true] fresh_world)
    = (Throw (DbError QRollback), w') /\
    committed w' = [] /\
    map Tx.status (visible w') = [PENDING].
Proof.
  eexists. split; [vm_compute; reflexivity|]. split; reflexivity.
Qed.

(** ** Validation *)

Lemma check_rules_first {R : Type} (test : R -> option string) (rules : list R) :
  Joi.check_rules true test rules = firstn 1 (Joi.check_rules false test rules).
Proof.
  induction rules as [|r rules IH]; cbn; [reflexivity|].
  destruct (test r); [reflexivity | exact IH].
Qed.

Lemma check_value_first (k : string) (key : Joi.Key) (v : JsValue) :
  snd (Joi.check_value true k key v) = firstn 1 (snd (Joi.check_value false k key v)).
Proof.
  unfold Joi.check_value.
  destruct v; destruct (Joi.required key); destruct (Joi.type key);
    try reflexivity;
    repeat match goal with
           | |- context [if ?b then _ else _] => destruct b
           | |- context [match ?o with Some _ => _ | None => _ end] => destruct o
           end;
    cbn [snd]; try reflexivity; apply check_rules_first.
Qed.

Lemma check_keys_first (schema : list (string * Joi.Key)) (obj : JsValue) :
  snd (Joi.check_keys true schema obj) = firstn 1 (snd (Joi.check_keys false schema obj)).
Proof.
  induction schema as [|[k key] rest IH]; cbn [Joi.check_keys]; [reflexivity|].
  pose proof (check_value_first k key (prop k obj)) as Hv.
  destruct (Joi.check_value true k key (prop k obj)) as [v1 e1].
  destruct (Joi.check_value false k key (prop k obj)) as [v2 e2].
  cbn [snd] in Hv. subst e1. cbn [andb].
  destruct (Joi.check_keys true rest obj) as [vs1 es1].
  destruct (Joi.check_keys false rest obj) as [vs2 es2].
  cbn [snd] in IH. subst es1.
  destruct e2 as [|m e2]; cbn; reflexivity.
Qed.

(** What [validate] reports is the head of what a validation without
    [abortEarly] reports. *)
Lemma validate_first (schema : list (string * Joi.Key)) (input : JsValue) :
  details (Joi.validate schema input)
  = firstn 1 (details (Joi.validateWith false schema input)).
Proof.
  unfold Joi.validate, Joi.validateWith, details.
  destruct input; try reflexivity.
  pose proof (check_keys_first schema (JObj fields)) as Hk.
  destruct (Joi.check_keys true schema (JObj fields)) as [vs1 es1].
  destruct (Joi.check_keys false schema (JObj fields)) as [vs2 es2].
  cbn [snd] in Hk. subst es1. cbn [andb Joi.error].
  rewrite check_rules_first.
  destruct es2 as [|m es2]; cbn.
  - destruct (Joi.check_rules false (Joi.unknown_key schema) (map fst fields)); reflexivity.
  - reflexivity.
Qed.

Lemma error_details (abortEarly : bool) (schema : list (string * Joi.Key)) (input : JsValue) :
  match Joi.error (Joi.validateWith abortEarly schema input) with
  | Some l => l <> []
  | None => True
  end.
Proof.
  unfold Joi.validateWith. destruct input; cbn; try exact I; try discriminate.
  destruct (Joi.check_keys abortEarly schema (JObj fields)) as [vs es]. cbn.
  match goal with |- context [Joi.nonempty ?l] => destruct l end; cbn;
    [exact I | discriminate].
Qed.

(** C3, as the code has it.  A body that fails validation produces one
    error whose details hold exactly one message: the first violation in
    the order of the schema; the violations after it, which a validation
    without [abortEarly] lists, are not reported. *)
Theorem validation_reports_first_violation (input : JsValue) (reported : list string) :
  Joi.error (Joi.validate purchaseSchema input) = Some reported ->
  exists m others,
    reported = [m] /\
    Joi.error (Joi.validateWith false purchaseSchema input) = Some (m :: others).
Proof.
  intros H.
  pose proof (validate_first purchaseSchema input) as Hf.
  pose proof (error_details true purchaseSchema input) as Hn.
  pose proof (error_details false purchaseSchema input) as Hn'.
  unfold details in Hf. fold Joi.validate in Hn. rewrite H in Hf, Hn.
  destruct (Joi.error (Joi.validateWith false purchaseSchema input)) as [all|].
  - destruct all as [|m others]; [contradiction|].
    exists m, others. split; [exact Hf | reflexivity].
  - cbn in Hf. contradiction.
Qed.

Lemma validation_reports_first_violation_witness :
  Joi.error (Joi.validate purchaseSchema broken_body)
  = Some [String.append (Joi.label "player_id") " must be a valid GUID"] /\
  exists m others,
    [String.append (Joi.label "player_id") " must be a valid GUID"] = [m] /\
    Joi.error (Joi.validateWith false purchaseSchema broken_body) = Some (m :: others).
Proof.
  split; [reflexivity|].
  apply (validation_reports_first_violation broken_body). reflexivity.
Defined.

(** C3, counterexample.  The body with [price_cents = 0], [quantity = 0],
    [currency = "US"] and a [player_id] that is no UUID violates four
    fields; the handler answers 400 with the message for [player_id]
    alone. *)
Lemma four_violations_one_message :
  handler broken_purchase fresh_world
  = (Return (json 400 (JObj [ ("error", JStr "Validation failed");
                              ("details",
                                JArr [JStr (String.append (Joi.label "player_id") " must be a valid GUID")]) ])),
     fresh_world) /\
  Joi.error (Joi.validateWith false purchaseSchema broken_body)
  = Some [ String.append (Joi.label "player_id") " must be a valid GUID";
           String.append (Joi.label "price_cents") " must be greater than or equal to 1";
           String.append (Joi.label "currency") " length must be 3 characters long";
           String.append (Joi.label "quantity") " must be greater than or equal to 1" ].
Proof.
  split; vm_compute; reflexivity.
Qed.

(** C8.  A purchase request whose body fails validation is answered at
    once with status 400, the error ['Validation failed'] and the
    details; the world is left exactly as it was: no statement is sent,
    no row is created, no payment is requested. *)
Theorem validation_failure_leaves_no_trace
        (event : Event) (w : World) (input : JsValue) (reported : list string) :
  fst (parseBody event w) = Return input ->
  method_of event = Some "POST" ->
  path_of event = Some "/purchase" ->
  Joi.error (Joi.validate purchaseSchema input) = Some reported ->
  handler event w
  = (Return (json 400 (JObj [ ("error", JStr "Validation failed");
                              ("details", JArr (map JStr reported)) ])), w).
Proof.
  intros Hb Hm Hp He. unfold handler. cbn [bind catch Monad_Js MonadExc_Js].
  unfold parseBody in *. rewrite Hm, Hp.
  destruct (body event) as [[v|]|v]; cbn in Hb; try discriminate;
    injection Hb as ->; cbn -[Joi.validate purchaseSchema]; rewrite He; reflexivity.
Qed.

Lemma validation_failure_leaves_no_trace_witness :
  fst (parseBody broken_purchase (world_with (purchases alice 2))) = Return broken_body /\
  method_of broken_purchase = Some "POST" /\
  path_of broken_purchase = Some "/purchase" /\
  Joi.error (Joi.validate purchaseSchema broken_body)
  = Some [String.append (Joi.label "player_id") " must be a valid GUID"] /\
  handler broken_purchase (world_with (purchases alice 2))
  = (Return (json 400 (JObj [ ("error", JStr "Validation failed");
                              ("details",
                                JArr (map JStr [String.append (Joi.label "player_id") " must be a valid GUID"])) ])),
     world_with (purchases alice 2)).
Proof.
  split; [reflexivity|]. split; [reflexivity|]. split; [reflexivity|].
  split; [reflexivity|].
  apply (validation_failure_leaves_no_trace
           broken_purchase (world_with (purchases alice 2)) broken_body);
    reflexivity.
Defined.

(** ** The history query *)

Lemma insert_desc_perm (r : Tx.row) (l : list Tx.row) :
  Permutation (r :: l) (insert_desc r l).
Proof.
  induction l as [|x l IH]; cbn; [reflexivity|].
  destruct (Z.leb (Tx.created_at x) (Tx.created_at r)); [reflexivity|].
  rewrite perm_swap. constructor. exact IH.
Qed.

Lemma insert_desc_sorted (r : Tx.row) (l : list Tx.row) :
  StronglySorted newer_first l -> StronglySorted newer_first (insert_desc r l).
Proof.
  induction 1 as [|x l Hs IH Hx]; cbn.
  - repeat constructor.
  - destruct (Z.leb_spec (Tx.created_at x) (Tx.created_at r)) as [Hle|Hlt].
    + constructor; [constructor; assumption|].
      constructor; [exact Hle|].
      rewrite Forall_forall in *. intros y Hy. specialize (Hx y Hy).
      unfold newer_first in *. lia.
    + constructor; [exact IH|].
      apply (Permutation_Forall (insert_desc_perm r l)).
      constructor; [unfold newer_first; lia | exact Hx].
Qed.

Lemma order_by_created_desc_perm (l : list Tx.row) :
  Permutation l (order_by_created_desc l).
Proof.
  induction l as [|x l IH]; cbn; [reflexivity|].
  rewrite <- insert_desc_perm. constructor. exact IH.
Qed.

Lemma order_by_created_desc_sorted (l : list Tx.row) :
  StronglySorted newer_first (order_by_created_desc l).
Proof.
  induction l as [|x l IH]; cbn; [constructor | apply insert_desc_sorted, IH].
Qed.

Lemma sorted_app_inv (l1 l2 : list Tx.row) :
  StronglySorted newer_first (l1 ++ l2) ->
  StronglySorted newer_first l1 /\
  forall a b, In a l1 -> In b l2 -> newer_first a b.
Proof.
  induction l1 as [|x l1 IH]; cbn; intros H.
  - split; [constructor | intros a b []].
  - inversion H as [|? ? Hs Hx]; subst. destruct (IH Hs) as [H1 H2].
    rewrite Forall_app in Hx. destruct Hx as [Hx1 Hx2].
    split; [constructor; assumption|].
    intros a b [<-|Ha] Hb; [|apply H2; assumption].
    rewrite Forall_forall in Hx2. apply Hx2, Hb.
Qed.

(** The rows a successful history query returns and the statement it
    sent last. *)
Lemma getPlayerTransactions_rows (playerId : string) (limit : option nat)
      (w w' : World) (rows : list Tx.row) :
  getPlayerTransactions playerId limit w = (Return rows, w') ->
  rows = firstn (match limit with Some n => n | None => 100%nat end)
                (order_by_created_desc (filter (of_player playerId) (visible w'))) /\
  exists before,
    sent w' = before ++ [QSelectByPlayer playerId
                           (match limit with Some n => n | None => 100%nat end)].
Proof.
  unfold getPlayerTransactions. cbn [bind Monad_Js].
  destruct (getDbClient w) as [[c|e] w1]; [|discriminate].
  destruct w1 as [cc r s f l u t a dv]. unfold query, next_fault. cbn.
  destruct f as [|[|] f]; cbn; try discriminate;
    intros H; injection H as <- <-; (split; [reflexivity|]); cbn; eexists; reflexivity.
Qed.

(** In a quiet world the history query returns. *)
Lemma getPlayerTransactions_quiet (playerId : string) (limit : option nat) (w : World) :
  quiet w ->
  exists rows w', getPlayerTransactions playerId limit w = (Return rows, w').
Proof.
  intros H. destruct (getDbClient_quiet w H) as (c & w1 & E1 & H1 & _).
  unfold getPlayerTransactions. cbn [bind Monad_Js]. rewrite E1.
  unfold query. accept H1. cbn. do 2 eexists. reflexivity.
Qed.

(** C6, as the code has it.  The rows [getPlayerTransactions] returns are
    rows of the player, ordered by [created_at] descending, as many as the
    limit allows (the limit as given, 100 when none is given) and no
    older row of the player precedes them: every row of the player that
    is left out is at most as recent as every row returned.  The function
    takes no cursor and always reads from the most recent row. *)
Theorem history_query_first_page
        (playerId : string) (limit : option nat) (w w' : World) (rows : list Tx.row) :
  getPlayerTransactions playerId limit w = (Return rows, w') ->
  let n := match limit with Some n => n | None => 100%nat end in
  let mine := filter (of_player playerId) (visible w') in
  List.length rows = Nat.min n (List.length mine) /\
  Forall (fun r => Tx.player_id r = playerId) rows /\
  StronglySorted newer_first rows /\
  exists older,
    Permutation mine (rows ++ older) /\
    forall r o, In r rows -> In o older -> Tx.created_at o <= Tx.created_at r.
Proof.
  intros H n mine. apply getPlayerTransactions_rows in H. destruct H as [-> _].
  fold n. fold mine.
  pose proof (order_by_created_desc_perm mine) as Hp.
  pose proof (order_by_created_desc_sorted mine) as Hs.
  rewrite <- (firstn_skipn n (order_by_created_desc mine)) in Hs.
  apply sorted_app_inv in Hs. destruct Hs as [Hs1 Hs2].
  split; [|split; [|split]].
  - rewrite length_firstn. rewrite (Permutation_length Hp). reflexivity.
  - rewrite Forall_forall. intros r Hr.
    assert (In r (firstn n (order_by_created_desc mine)
                  ++ skipn n (order_by_created_desc mine)))
      as Hr' by (apply in_or_app; left; exact Hr).
    rewrite firstn_skipn in Hr'.
    apply (Permutation_in _ (Permutation_sym Hp)) in Hr'.
    apply filter_In in Hr'. destruct Hr' as [_ Hr']. apply String.eqb_eq, Hr'.
  - exact Hs1.
  - exists (skipn n (order_by_created_desc mine)). split.
    + rewrite firstn_skipn. exact Hp.
    + intros r o Hr Ho. apply (Hs2 r o Hr Ho).
Qed.

Lemma history_query_first_page_witness :
  getPlayerTransactions alice (Some 2%nat) (world_with (purchases alice 3))
  = (Return (firstn 2 (rev (purchases alice 3))),
     snd (getPlayerTransactions alice (Some 2%nat) (world_with (purchases alice 3)))) /\
  let w' := snd (getPlayerTransactions alice (Some 2%nat) (world_with (purchases alice 3))) in
  let rows := firstn 2 (rev (purchases alice 3)) in
  let mine := filter (of_player alice) (visible w') in
  List.length rows = Nat.min 2 (List.length mine) /\
  Forall (fun r => Tx.player_id r = alice) rows /\
  StronglySorted newer_first rows /\
  exists older,
    Permutation mine (rows ++ older) /\
    forall r o, In r rows -> In o older -> Tx.created_at o <= Tx.created_at r.
Proof.
  split; [reflexivity|].
  apply (history_query_first_page alice (Some 2%nat) (world_with (purchases alice 3))).
  reflexivity.
Defined.

(** C6, counterexample.  With 1001 purchases of one player in the store
    and a limit of 1001, the query returns 1001 rows: the limit is not
    capped at 1000. *)
Lemma limit_not_capped :
  exists rows w',
    getPlayerTransactions alice (Some 1001%nat) (world_with (purchases alice 1001))
    = (Return rows, w') /\
    List.length rows = 1001%nat.
Proof.
  destruct (getPlayerTransactions_quiet alice (Some 1001%nat)
              (world_with (purchases alice 1001)) eq_refl) as (rows & w' & E).
  exists rows, w'. split; [exact E|].
  apply (f_equal (fun r => match fst r with
                           | Return l => List.length l
                           | Throw _ => O
                           end)) in E.
  cbn [fst] in E. rewrite <- E. vm_compute. reflexivity.
Qed.

(** ** The history route of the handler *)

Lemma equals_true (s : string) (v : option string) :
  equals s v = true -> v = Some s.
Proof.
  destruct v as [x|]; cbn; [|discriminate].
  intros H. apply String.eqb_eq in H. subst. reflexivity.
Qed.

(** The handler on the history route, case by case. *)
Lemma handler_history (event : Event) (w : World) :
  history_route event ->
  handler event w =
  match body event with
  | BodyText None => (Return (internal_error (SyntaxError "Unexpected token in JSON") w), w)
  | _ =>
      match playerId_of (path_of event) with
      | None | Some EmptyString =>
          (Return (json 400 (JObj [ ("error", JStr "Player ID required") ])), w)
      | Some playerId =>
          match getPlayerTransactions playerId None w with
          | (Return rows, w') =>
              (Return (json 200 (JObj [ ("transactions", JArr (map Tx.to_js rows)) ])), w')
          | (Throw e, w') => (Return (internal_error e w'), w')
          end
      end
  end.
Proof.
  intros [Hm Hp]. unfold handler, parseBody. cbn [bind catch Monad_Js MonadExc_Js].
  rewrite Hp. apply equals_true in Hm. rewrite Hm.
  destruct (body event) as [[v|]|v]; cbn -[getPlayerTransactions playerId_of];
    try reflexivity;
    (destruct (playerId_of (path_of event)) as [[|ch p]|]; cbn -[getPlayerTransactions];
     try reflexivity;
     destruct (getPlayerTransactions (String ch p) None w) as [[rows|e] w1]; reflexivity).
Qed.

(** C5, as the code has it.  The history read always answers; a
    successful answer (status 200) is an object whose only property is
    [transactions], the rows found; no answer of the route has a
    [has_more] property. *)
Theorem history_response_has_transactions_only (event : Event) (w : World) :
  history_route event ->
  exists r w',
    handler event w = (Return r, w') /\
    hasProp "has_more" (payload r) = false /\
    ((statusCode r = 200 /\
      exists rows, payload r = JObj [ ("transactions", JArr (map Tx.to_js rows)) ]) \/
     statusCode r = 400 \/
     statusCode r = 500).
Proof.
  intros Hr. rewrite (handler_history event w Hr).
  destruct (body event) as [[v|]|v];
    try (do 2 eexists; split; [reflexivity|]; split; [reflexivity | auto]);
    (destruct (playerId_of (path_of event)) as [[|ch p]|];
     try (do 2 eexists; split; [reflexivity|]; split; [reflexivity | auto]);
     destruct (getPlayerTransactions (String ch p) None w) as [[rows|e] w1];
     do 2 eexists; (split; [reflexivity|]); (split; [reflexivity|]); auto;
     left; split; [reflexivity|]; exists rows; reflexivity).
Qed.

Lemma history_response_has_transactions_only_witness :
  history_route history_of_alice /\
  exists r w',
    handler history_of_alice (world_with (purchases alice 3)) = (Return r, w') /\
    hasProp "has_more" (payload r) = false /\
    ((statusCode r = 200 /\
      exists rows, payload r = JObj [ ("transactions", JArr (map Tx.to_js rows)) ]) \/
     statusCode r = 400 \/
     statusCode r = 500).
Proof.
  split; [split; reflexivity|].
  apply (history_response_has_transactions_only
           history_of_alice (world_with (purchases alice 3))).
  split; reflexivity.
Defined.

(** C5, counterexample.  With 150 purchases of the player in the store,
    the history read answers 200 with 100 rows under [transactions] and
    nothing else: there is no [has_more] flag, although 50 further rows
    exist. *)
Lemma history_response_without_has_more :
  exists r w',
    handler history_of_alice (world_with (purchases alice 150)) = (Return r, w') /\
    statusCode r = 200 /\
    keys (payload r) = ["transactions"] /\
    prop "has_more" (payload r) = JUndefined /\
    (exists items, prop "transactions" (payload r) = JArr items /\
                   List.length items = 100%nat) /\
    List.length (filter (of_player alice) (committed w')) = 150%nat.
Proof.
  destruct (handler history_of_alice (world_with (purchases alice 150)))
    as [o w'] eqn:E.
  assert (Ho : o = fst (handler history_of_alice (world_with (purchases alice 150))))
    by (rewrite E; reflexivity).
  assert (Hw : w' = snd (handler history_of_alice (world_with (purchases alice 150))))
    by (rewrite E; reflexivity).
  clear E. vm_compute in Ho. vm_compute in Hw. subst o w'.
  do 2 eexists. split; [reflexivity|].
  split; [reflexivity|]. split; [reflexivity|]. split; [reflexivity|].
  split; [eexists; split; reflexivity | reflexivity].
Qed.

(** C9.  On the history route, with a body that parses and a player id
    in the path, the handler does not look at the query-string parameters
    of the event: whatever limit or cursor the caller supplies, the
    answer is the same.  Once [getDbClient] has given the connection the
    handler sends one statement, the history query of the player with
    limit 100 (the statement has no cursor); when the store accepts it
    the answer is 200 with the first 100 rows of the player by
    [created_at] descending, so at most 100 rows, and when the store
    rejects it the answer is the 500 of that error.  Without a connection
    the answer is the 500 of the connection error and no statement is
    sent.  When the store rejects nothing the answer is 200. *)
Theorem history_request_uses_default_limit
        (event : Event) (w : World) (playerId : string) (input : JsValue) :
  history_route event ->
  fst (parseBody event w) = Return input ->
  playerId_of (path_of event) = Some playerId ->
  negb (String.eqb playerId "") = true ->
  (forall qs, handler (with_query qs event) w = handler event w) /\
  exists r w',
    handler event w = (Return r, w') /\
    match getDbClient w with
    | (Return _, w1) =>
        sent w' = sent w1 ++ [QSelectByPlayer playerId 100] /\
        if hd false (faults w1)
        then r = internal_error (DbError (QSelectByPlayer playerId 100)) w'
        else exists rows,
            r = json 200 (JObj [ ("transactions", JArr (map Tx.to_js rows)) ]) /\
            rows = firstn 100 (order_by_created_desc
                                 (filter (of_player playerId) (visible w'))) /\
            (List.length rows <= 100)%nat
    | (Throw e, w1) => r = internal_error e w1 /\ w' = w1
    end /\
    (quiet w -> statusCode r = 200).
Proof.
  intros Hr Hb Hp Hne. split; [intros qs; reflexivity|].
  rewrite (handler_history event w Hr), Hp.
  destruct playerId as [|ch p]; [discriminate|].
  unfold parseBody in Hb.
  assert (Hbody : body event <> BodyText None)
    by (intros E; rewrite E in Hb; discriminate Hb).
  clear Hb.
  assert (Hh : match body event with
               | BodyText None =>
                   (Return (internal_error (SyntaxError "Unexpected token in JSON") w), w)
               | _ =>
                   match getPlayerTransactions (String ch p) None w with
                   | (Return rows, w') =>
                       (Return (json 200 (JObj [ ("transactions",
                                                  JArr (map Tx.to_js rows)) ])), w')
                   | (Throw e, w') => (Return (internal_error e w'), w')
                   end
               end
               = match getPlayerTransactions (String ch p) None w with
                 | (Return rows, w') =>
                     (Return (json 200 (JObj [ ("transactions",
                                                JArr (map Tx.to_js rows)) ])), w')
                 | (Throw e, w') => (Return (internal_error e w'), w')
                 end).
  { destruct (body event) as [[v|]|v]; [reflexivity | contradiction | reflexivity]. }
  rewrite Hh. clear Hh Hbody.
  unfold getPlayerTransactions. cbn [bind Monad_Js].
  destruct (getDbClient w) as [[c|e] w1] eqn:E.
  - assert (Hq1 : quiet w -> quiet w1).
    { intros H. destruct (getDbClient_quiet w H) as (c' & w1' & E' & H1 & _).
      rewrite E in E'. injection E' as _ <-. exact H1. }
    destruct w1 as [cc r s f l u t a dv]. unfold query, next_fault. cbn -[firstn].
    destruct f as [|[|] f]; cbn -[firstn]; do 2 eexists; (split; [reflexivity|]);
      cbn -[firstn].
    + split; [split; [reflexivity|]|reflexivity].
      eexists. split; [reflexivity|]. split; [reflexivity | apply firstn_le_length].
    + split; [split; reflexivity|].
      intros H. apply Hq1 in H. discriminate H.
    + split; [split; [reflexivity|]|reflexivity].
      eexists. split; [reflexivity|]. split; [reflexivity | apply firstn_le_length].
  - do 2 eexists. split; [reflexivity|]. split; [split; reflexivity|].
    intros H. destruct (getDbClient_quiet w H) as (c' & w1' & E' & _).
    rewrite E in E'. discriminate E'.
Qed.

Lemma history_request_uses_default_limit_witness :
  history_route history_of_alice /\
  fst (parseBody history_of_alice (world_with (purchases alice 3))) = Return JNull /\
  playerId_of (path_of history_of_alice) = Some alice /\
  negb (String.eqb alice "") = true /\
  (forall qs, handler (with_query qs history_of_alice) (world_with (purchases alice 3))
              = handler history_of_alice (world_with (purchases alice 3))) /\
  exists r w',
    handler history_of_alice (world_with (purchases alice 3)) = (Return r, w') /\
    match getDbClient (world_with (purchases alice 3)) with
    | (Return _, w1) =>
        sent w' = sent w1 ++ [QSelectByPlayer alice 100] /\
        if hd false (faults w1)
        then r = internal_error (DbError (QSelectByPlayer alice 100)) w'
        else exists rows,
            r = json 200 (JObj [ ("transactions", JArr (map Tx.to_js rows)) ]) /\
            rows = firstn 100 (order_by_created_desc
                                 (filter (of_player alice) (visible w'))) /\
            (List.length rows <= 100)%nat
    | (Throw e, w1) => r = internal_error e w1 /\ w' = w1
    end /\
    (quiet (world_with (purchases alice 3)) -> statusCode r = 200).
Proof.
  split; [split; reflexivity|]. split; [reflexivity|].
  split; [reflexivity|]. split; [reflexivity|].
  apply (history_request_uses_default_limit
           history_of_alice (world_with (purchases alice 3)) alice JNull).
  - split; reflexivity.
  - reflexivity.
  - reflexivity.
  - reflexivity.
Defined.

(** * Further properties of the code *)

(** ** [getDbClient] *)

Lemma getDbClient_sources (w : World) :
  uuid_seed (snd (getDbClient w)) = uuid_seed w /\
  clock (snd (getDbClient w)) = clock w /\
  development (snd (getDbClient w)) = development w.
Proof.
  destruct w as [c r s f l u t a d]. unfold getDbClient, connect, query, next_fault; cbn.
  destruct c as [[[|]]|]; cbn; destruct f as [|[|] f]; cbn; auto;
    destruct f as [|[|] f]; cbn; auto.
Qed.

Lemma getDbClient_session_none (w : World) :
  session w = None -> session (snd (getDbClient w)) = None.
Proof.
  destruct w as [c r s f l u t a d]. cbn. intros ->.
  unfold getDbClient, connect, query, next_fault; cbn.
  destruct c as [[[|]]|]; cbn; destruct f as [|[|] f]; cbn; auto;
    destruct f as [|[|] f]; cbn; auto.
Qed.

Lemma getDbClient_returns_cached (w w' : World) (c : Client) :
  getDbClient w = (Return c, w') ->
  cachedClient w' = Some c /\ _ending c = false.
Proof.
  destruct w as [cc r s f l u t a d].
  unfold getDbClient, connect, query, next_fault. cbn.
  destruct cc as [[[|]]|]; cbn; destruct f as [|[|] f]; cbn;
    try (intros H; injection H as <- <-; split; reflexivity);
    try discriminate;
    destruct f as [|[|] f]; cbn;
    try (intros H; injection H as <- <-; split; reflexivity);
    discriminate.
Qed.

(** X1.  A cached client that is not ending is reused when its [SELECT 1]
    ping is accepted: the same client is returned, the ping is the only
    statement sent, and the cache, the durable rows and the state of the
    open transaction stay as they were. *)
Theorem getDbClient_reuses_live_client (w : World) (c : Client) :
  cachedClient w = Some c ->
  _ending c = false ->
  hd false (faults w) = false ->
  exists w',
    getDbClient w = (Return c, w') /\
    sent w' = sent w ++ [QSelect1] /\
    cachedClient w' = Some c /\
    committed w' = committed w /\
    session w' = session w.
Proof.
  destruct w as [cc r s f l u t a d]. cbn. intros -> He Hf.
  unfold getDbClient, query, next_fault. cbn. rewrite He. cbn.
  destruct f as [|b f]; cbn in *; [|subst b; cbn];
    eexists; (split; [reflexivity|]); cbn; auto.
Qed.

Lemma getDbClient_reuses_live_client_witness :
  cachedClient warm_world = Some {| _ending := false |} /\
  _ending {| _ending := false |} = false /\
  hd false (faults warm_world) = false /\
  exists w',
    getDbClient warm_world = (Return {| _ending := false |}, w') /\
    sent w' = sent warm_world ++ [QSelect1] /\
    cachedClient w' = Some {| _ending := false |} /\
    committed w' = committed warm_world /\
    session w' = session warm_world.
Proof.
  split; [reflexivity|]. split; [reflexivity|]. split; [reflexivity|].
  apply (getDbClient_reuses_live_client warm_world {| _ending := false |});
    reflexivity.
Defined.

(** X2.  When the ping of the cached client is rejected, [getDbClient]
    drops it and connects a new client, which it caches before the
    connection is made: if the connection is accepted the new client is
    returned and no transaction is open; if it is rejected too, the call
    throws the connection error and the client that never connected stays
    in the cache.  The durable rows are untouched either way. *)
Theorem getDbClient_reconnects_after_failed_ping
        (w : World) (c : Client) (connect_rejected : bool) (rest : list bool) :
  cachedClient w = Some c ->
  _ending c = false ->
  faults w = true :: connect_rejected :: rest ->
  exists w',
    getDbClient w
    = ((if connect_rejected then Throw ConnectError
        else Return {| _ending := false |}), w') /\
    cachedClient w' = Some {| _ending := false |} /\
    sent w' = sent w ++ [QSelect1] /\
    committed w' = committed w /\
    session w' = (if connect_rejected then session w else None) /\
    faults w' = rest.
Proof.
  destruct w as [cc r s f l u t a d]. cbn. intros -> He ->.
  unfold getDbClient, connect, query, next_fault. cbn. rewrite He. cbn.
  destruct connect_rejected; cbn; eexists; (split; [reflexivity|]); cbn; auto 6.
Qed.

Lemma getDbClient_reconnects_after_failed_ping_witness :
  cachedClient (set_faults [true; true] warm_world) = Some {| _ending := false |} /\
  _ending {| _ending := false |} = false /\
  faults (set_faults [true; true] warm_world) = true :: true :: [] /\
  exists w',
    getDbClient (set_faults [true; true] warm_world)
    = ((if true then Throw ConnectError else Return {| _ending := false |}), w') /\
    cachedClient w' = Some {| _ending := false |} /\
    sent w' = sent (set_faults [true; true] warm_world) ++ [QSelect1] /\
    committed w' = committed (set_faults [true; true] warm_world) /\
    session w' = (if true then session (set_faults [true; true] warm_world) else None) /\
    faults w' = [].
Proof.
  split; [reflexivity|]. split; [reflexivity|]. split; [reflexivity|].
  apply (getDbClient_reconnects_after_failed_ping
           (set_faults [true; true] warm_world) {| _ending := false |} true []);
    reflexivity.
Defined.

(** X3.  Without a usable cached client (none, or one that is ending)
    [getDbClient] sends no statement: it caches a new client and connects
    it, returning that client or throwing the connection error. *)
Theorem getDbClient_connects_without_ping (w : World) :
  match cachedClient w with Some c => _ending c | None => true end = true ->
  sent (snd (getDbClient w)) = sent w /\
  cachedClient (snd (getDbClient w)) = Some {| _ending := false |} /\
  (fst (getDbClient w) = Return {| _ending := false |} \/
   fst (getDbClient w) = Throw ConnectError).
Proof.
  destruct w as [cc r s f l u t a d]. cbn.
  unfold getDbClient, connect, query, next_fault. cbn.
  destruct cc as [[[|]]|]; cbn; try discriminate; intros _;
    destruct f as [|[|] f]; cbn; auto.
Qed.

Lemma getDbClient_connects_without_ping_witness :
  match cachedClient faulty_world with Some c => _ending c | None => true end = true /\
  sent (snd (getDbClient faulty_world)) = sent faulty_world /\
  cachedClient (snd (getDbClient faulty_world)) = Some {| _ending := false |} /\
  (fst (getDbClient faulty_world) = Return {| _ending := false |} \/
   fst (getDbClient faulty_world) = Throw ConnectError).
Proof.
  split; [reflexivity|].
  apply (getDbClient_connects_without_ping faulty_world). reflexivity.
Defined.

(** X4.  Two calls in a row: the client a call returns is the cached one,
    so a second call whose ping is accepted returns the same client with
    that ping as its only statement, and keeps the open transaction and
    the durable rows. *)
Theorem getDbClient_twice (w w1 : World) (c : Client) :
  getDbClient w = (Return c, w1) ->
  hd false (faults w1) = false ->
  exists w2,
    getDbClient w1 = (Return c, w2) /\
    sent w2 = sent w1 ++ [QSelect1] /\
    cachedClient w2 = Some c /\
    session w2 = session w1 /\
    committed w2 = committed w1.
Proof.
  intros E Hf. apply getDbClient_returns_cached in E. destruct E as [Hc He].
  destruct w1 as [cc r s f l u t a d]. cbn in Hc, Hf |- *. subst cc.
  unfold getDbClient, query, next_fault. cbn. rewrite He. cbn.
  destruct f as [|b f]; cbn in *; [|subst b; cbn];
    eexists; (split; [reflexivity|]); cbn; auto.
Qed.

Lemma getDbClient_twice_witness :
  getDbClient fresh_world
  = (Return {| _ending := false |}, snd (getDbClient fresh_world)) /\
  hd false (faults (snd (getDbClient fresh_world))) = false /\
  exists w2,
    getDbClient (snd (getDbClient fresh_world)) = (Return {| _ending := false |}, w2) /\
    sent w2 = sent (snd (getDbClient fresh_world)) ++ [QSelect1] /\
    cachedClient w2 = Some {| _ending := false |} /\
    session w2 = session (snd (getDbClient fresh_world)) /\
    committed w2 = committed (snd (getDbClient fresh_world)).
Proof.
  split; [reflexivity|]. split; [reflexivity|].
  apply (getDbClient_twice fresh_world (snd (getDbClient fresh_world))
           {| _ending := false |}); reflexivity.
Defined.

(** ** [processPurchase] under every fault schedule *)

Ltac split_faults :=
  repeat (match goal with
          | |- context [match ?f with [] => _ | _ :: _ => _ end] =>
              is_var f; destruct f as [|[|] ?]
          end; run_js).



(** X6.  Once the client is obtained, the statements [processPurchase]
    sends start with [BEGIN] and end with [COMMIT] when it returns and
    with [ROLLBACK] when it throws: it never leaves without trying to
    close the transaction it opened. *)
Theorem processPurchase_closes_transaction
        (purchaseData : option Purchase.data) (w w1 : World) (c : Client) :
  getDbClient w = (Return c, w1) ->
  exists middle,
    match processPurchase purchaseData w with
    | (Return _, w') => sent w' = sent w1 ++ QBegin :: middle ++ [QCommit]
    | (Throw _, w') => sent w' = sent w1 ++ QBegin :: middle ++ [QRollback]
    end.
Proof.
  intros Hc. unfold processPurchase. cbn [bind catch Monad_Js MonadExc_Js].
  rewrite Hc. clear Hc w.
  destruct w1 as [cc r s f l u t a dv].
  unfold processPurchase_try, processPayment, query, next_fault.
  destruct purchaseData as [d|]; destruct s as [rows|]; run_js; split_faults;
    try (exists []; rewrite <- ?app_assoc; reflexivity);
    try (destruct (Z.ltb (Purchase.price_cents d) 100000); run_js; split_faults);
    rewrite <- ?app_assoc; cbn [app];
    match goal with
    | |- exists m, ?l ++ QBegin :: ?x :: ?y :: ?z :: ?k :: nil = _ =>
        exists [x; y; z]; reflexivity
    | |- exists m, ?l ++ QBegin :: ?x :: ?y :: ?z :: nil = _ =>
        exists [x; y]; reflexivity
    | |- exists m, ?l ++ QBegin :: ?x :: ?y :: nil = _ =>
        exists [x]; reflexivity
    | |- exists m, ?l ++ QBegin :: ?x :: nil = _ =>
        exists []; reflexivity
    end.
Qed.

Lemma processPurchase_closes_transaction_witness :
  getDbClient faulty_world
  = (Return {| _ending := false |}, snd (getDbClient faulty_world)) /\
  exists middle,
    match processPurchase (Some sword) faulty_world with
    | (Return _, w') =>
        sent w' = sent (snd (getDbClient faulty_world)) ++ QBegin :: middle ++ [QCommit]
    | (Throw _, w') =>
        sent w' = sent (snd (getDbClient faulty_world)) ++ QBegin :: middle ++ [QRollback]
    end.
Proof.
  split; [reflexivity|].
  apply (processPurchase_closes_transaction
           (Some sword) faulty_world (snd (getDbClient faulty_world))
           {| _ending := false |}).
  reflexivity.
Defined.

(** ** The handler, case by case *)

Lemma handler_cases (event : Event) (w : World) :
  handler event w =
  match fst (parseBody event w) with
  | Throw e => (Return (internal_error e w), w)
  | Return input =>
      if (equals "POST" (method_of event) && equals "/purchase" (path_of event))%bool
      then
        match Joi.error (Joi.validate purchaseSchema input) with
        | Some reported =>
            (Return (json 400 (JObj [ ("error", JStr "Validation failed");
                                      ("details", JArr (map JStr reported)) ])), w)
        | None =>
            match processPurchase
                    (option_map purchase_of
                                (Joi.value (Joi.validate purchaseSchema input))) w with
            | (Return v, w') => (Return (json 201 v), w')
            | (Throw e, w') => (Return (internal_error e w'), w')
            end
        end
      else if (equals "GET" (method_of event)
               && startsWith "/transactions/" (path_of event))%bool
      then
        match playerId_of (path_of event) with
        | None | Some EmptyString =>
            (Return (json 400 (JObj [ ("error", JStr "Player ID required") ])), w)
        | Some playerId =>
            match getPlayerTransactions playerId None w with
            | (Return rows, w') =>
                (Return (json 200 (JObj [ ("transactions",
                                           JArr (map Tx.to_js rows)) ])), w')
            | (Throw e, w') => (Return (internal_error e w'), w')
            end
        end
      else (Return (json 404 (JObj [ ("error", JStr "Not found") ])), w)
  end.
Proof.
  unfold handler, parseBody. cbn [bind catch Monad_Js MonadExc_Js].
  destruct (body event) as [[v|]|v]; cbn [fst ret raise Monad_Js MonadExc_Js];
    try reflexivity;
    destruct (equals "POST" (method_of event) && equals "/purchase" (path_of event))%bool;
    try (destruct (Joi.error (Joi.validate purchaseSchema v)); try reflexivity;
         destruct (processPurchase _ w) as [[x|e] w1]; reflexivity);
    destruct (equals "GET" (method_of event)
              && startsWith "/transactions/" (path_of event))%bool;
    try reflexivity;
    destruct (playerId_of (path_of event)) as [[|ch p]|]; try reflexivity;
    destruct (getPlayerTransactions (String ch p) None w) as [[rows|e] w1];
    reflexivity.
Qed.

(** X7.  A purchase request without a body passes validation (Joi accepts
    [undefined]) and then fails inside [processPurchase]: whatever the
    store does, the answer is the 500 response, no row is stored and no
    payment is requested. *)
Theorem purchase_without_body_is_a_server_error (event : Event) (w : World) :
  fst (parseBody event w) = Return JUndefined ->
  method_of event = Some "POST" ->
  path_of event = Some "/purchase" ->
  exists e w',
    handler event w = (Return (internal_error e w'), w') /\
    committed w' = committed w /\
    authorized w' = authorized w.
Proof.
  intros Hb Hm Hp. rewrite handler_cases, Hb, Hm, Hp.
  cbn [equals andb]. rewrite !String.eqb_refl.
  cbn [andb Joi.validate Joi.validateWith Joi.error Joi.value option_map].
  assert (Hrun : exists e w', processPurchase None w = (Throw e, w') /\
                              committed w' = committed w /\
                              authorized w' = authorized w).
  { pose proof (getDbClient_committed w) as Hr.
    pose proof (getDbClient_authorized w) as Ha.
    unfold processPurchase. cbn [bind catch Monad_Js MonadExc_Js].
    destruct (getDbClient w) as [[c|e] w1]; cbn [snd] in *;
      [|do 2 eexists; split; [reflexivity | split; assumption]].
    rewrite <- Hr, <- Ha. clear Hr Ha.
    destruct w1 as [cc r s f l u t a dv].
    unfold processPurchase_try, query, next_fault.
    destruct s as [rows|]; run_js; split_faults;
      do 2 eexists; (split; [reflexivity|]); split; reflexivity. }
  destruct Hrun as (e & w' & E & Hr & Ha).
  exists e, w'. rewrite E. auto.
Qed.

Lemma purchase_without_body_is_a_server_error_witness :
  fst (parseBody empty_purchase warm_world) = Return JUndefined /\
  method_of empty_purchase = Some "POST" /\
  path_of empty_purchase = Some "/purchase" /\
  exists e w',
    handler empty_purchase warm_world = (Return (internal_error e w'), w') /\
    committed w' = committed warm_world /\
    authorized w' = authorized warm_world.
Proof.
  split; [reflexivity|]. split; [reflexivity|]. split; [reflexivity|].
  apply (purchase_without_body_is_a_server_error empty_purchase warm_world);
    reflexivity.
Defined.

(** ** What every answer of the handler has in common *)

(** X8.  The handler never throws: every event, in every world, gets a
    response whose status is 200, 201, 400, 404 or 500 and whose only
    header announces JSON. *)
Theorem handler_always_answers (event : Event) (w : World) :
  exists r w',
    handler event w = (Return r, w') /\
    In (statusCode r) [200; 201; 400; 404; 500] /\
    headers r = [("Content-Type", "application/json")].
Proof.
  rewrite handler_cases.
  repeat match goal with
         | |- context [match ?x with _ => _ end] =>
             match x with
             | processPurchase _ _ => destruct x as [[?|?] ?]
             | getPlayerTransactions _ _ _ => destruct x as [[?|?] ?]
             | _ => destruct x
             end
         end;
    do 2 eexists; (split; [reflexivity|]); (split; [cbn; auto 10 | reflexivity]).
Qed.

(** X9.  An answer with status 400 or 404 is given before the store is
    touched: the world after it is the world before it (no connection, no
    statement, no payment request). *)
Theorem refused_request_leaves_no_trace (event : Event) (w w' : World) (r : Response) :
  handler event w = (Return r, w') ->
  statusCode r = 400 \/ statusCode r = 404 ->
  w' = w.
Proof.
  rewrite handler_cases. intros H Hs.
  repeat match type of H with
         | context [match ?x with _ => _ end] =>
             match x with
             | processPurchase _ _ => destruct x as [[?|?] ?]
             | getPlayerTransactions _ _ _ => destruct x as [[?|?] ?]
             | _ => destruct x
             end
         end;
    injection H as <- <-; try reflexivity;
    cbn in Hs; destruct Hs; discriminate.
Qed.

Lemma refused_request_leaves_no_trace_witness :
  handler (mkEvent (Some "DELETE") (Some "/purchase") None None (BodyValue JNull) [])
          warm_world
  = (Return (json 404 (JObj [ ("error", JStr "Not found") ])), warm_world) /\
  (statusCode (json 404 (JObj [ ("error", JStr "Not found") ])) = 400 \/
   statusCode (json 404 (JObj [ ("error", JStr "Not found") ])) = 404) /\
  warm_world = warm_world.
Proof.
  split; [reflexivity|]. split; [right; reflexivity|].
  apply (refused_request_leaves_no_trace
           (mkEvent (Some "DELETE") (Some "/purchase") None None (BodyValue JNull) [])
           warm_world warm_world
           (json 404 (JObj [ ("error", JStr "Not found") ]))).
  - reflexivity.
  - right. reflexivity.
Defined.

Lemma query_development (q : Query) (w : World) :
  development (snd (query q w)) = development w.
Proof.
  destruct w as [c r s f l u t a d]. unfold query, next_fault; cbn.
  destruct f as [|[|] f]; cbn; try reflexivity;
    destruct q; cbn; try reflexivity; destruct s; reflexivity.
Qed.

Ltac step_query_dev :=
  match goal with
  | |- context [query ?q ?w] =>
      let H := fresh "Hq" in
      pose proof (query_development q w) as H;
      destruct (query q w) as [[?|?] ?]; cbn -[Z.ltb Z.add N.succ] in H |- *
  end.

Lemma processPurchase_development (pd : option Purchase.data) (w : World) :
  development (snd (processPurchase pd w)) = development w.
Proof.
  unfold processPurchase. cbn [bind catch Monad_Js MonadExc_Js].
  destruct (getDbClient_sources w) as (_ & _ & H0).
  destruct (getDbClient w) as [[c|e] w1]; cbn [snd] in H0; [|exact H0].
  unfold processPurchase_try, processPayment. cbn -[Z.ltb Z.add N.succ].
  step_query_dev; [|step_query_dev; congruence].
  destruct pd as [d|]; cbn -[Z.ltb Z.add N.succ];
    [|step_query_dev; congruence].
  step_query_dev; [|step_query_dev; congruence].
  destruct (Z.ltb (Purchase.price_cents d) 100000); cbn -[Z.ltb Z.add N.succ].
  - step_query_dev; [|step_query_dev; congruence].
    step_query_dev; [|step_query_dev]; congruence.
  - step_query_dev; [|step_query_dev; congruence].
    step_query_dev; [|step_query_dev]; congruence.
Qed.

Lemma query_select_rows (playerId : string) (limit : nat) (w : World) :
  committed (snd (query (QSelectByPlayer playerId limit) w)) = committed w /\
  session (snd (query (QSelectByPlayer playerId limit) w)) = session w /\
  cachedClient (snd (query (QSelectByPlayer playerId limit) w)) = cachedClient w /\
  authorized (snd (query (QSelectByPlayer playerId limit) w)) = authorized w.
Proof.
  destruct w as [c r s f l u t a d]. unfold query, next_fault. cbn.
  destruct f as [|[|] f]; cbn; auto.
Qed.

Lemma getPlayerTransactions_keeps (playerId : string) (limit : option nat) (w : World) :
  committed (snd (getPlayerTransactions playerId limit w)) = committed w /\
  authorized (snd (getPlayerTransactions playerId limit w)) = authorized w /\
  development (snd (getPlayerTransactions playerId limit w)) = development w.
Proof.
  unfold getPlayerTransactions. cbn [bind Monad_Js].
  pose proof (getDbClient_committed w) as Hc.
  pose proof (getDbClient_authorized w) as Ha.
  destruct (getDbClient_sources w) as (_ & _ & Hd).
  destruct (getDbClient w) as [[c|e] w1]; cbn [snd] in *; [|auto].
  destruct (query_select_rows playerId
              (match limit with Some n => n | None => 100%nat end) w1)
    as (Q1 & _ & _ & Q4).
  pose proof (query_development
                (QSelectByPlayer playerId
                   (match limit with Some n => n | None => 100%nat end)) w1) as Q5.
  destruct (query _ w1) as [[rows|e] w2]; cbn [snd] in *;
    repeat split; congruence.
Qed.

(** X10.  Outside development, a 500 answer never carries the message of
    the error behind it: whatever failed (the JSON of the body, the
    connection, a statement), the body of the answer is the same fixed
    pair of texts. *)
Theorem server_error_hides_its_cause (event : Event) (w w' : World) (r : Response) :
  handler event w = (Return r, w') ->
  statusCode r = 500 ->
  development w = false ->
  payload r = JObj [ ("error", JStr "Internal server error");
                     ("message", JStr "An unexpected error occurred") ].
Proof.
  rewrite handler_cases. intros H Hs Hd.
  destruct (fst (parseBody event w)) as [input|e].
  - destruct (equals "POST" (method_of event) && equals "/purchase" (path_of event))%bool.
    + destruct (Joi.error (Joi.validate purchaseSchema input)).
      * injection H as <- <-. discriminate Hs.
      * pose proof (processPurchase_development
                      (option_map purchase_of
                                  (Joi.value (Joi.validate purchaseSchema input))) w) as Hk.
        destruct (processPurchase _ w) as [[v|e] w1]; injection H as <- <-;
          [discriminate Hs|].
        cbn [snd] in Hk. unfold internal_error. cbn [payload json].
        rewrite Hk, Hd. reflexivity.
    + destruct (equals "GET" (method_of event)
                && startsWith "/transactions/" (path_of event))%bool;
        [|injection H as <- <-; discriminate Hs].
      destruct (playerId_of (path_of event)) as [[|ch p]|];
        try (injection H as <- <-; discriminate Hs).
      destruct (getPlayerTransactions_keeps (String ch p) None w) as (_ & _ & Hk).
      destruct (getPlayerTransactions (String ch p) None w) as [[rows|e] w1];
        injection H as <- <-; [discriminate Hs|].
      cbn [snd] in Hk. unfold internal_error. cbn [payload json].
      rewrite Hk, Hd. reflexivity.
  - injection H as <- <-. unfold internal_error. cbn [payload json].
    rewrite Hd. reflexivity.
Qed.

Lemma server_error_hides_its_cause_witness :
  handler malformed_purchase warm_world
  = (Return (internal_error (SyntaxError "Unexpected token in JSON") warm_world),
     warm_world) /\
  statusCode (internal_error (SyntaxError "Unexpected token in JSON") warm_world) = 500 /\
  development warm_world = false /\
  payload (internal_error (SyntaxError "Unexpected token in JSON") warm_world)
  = JObj [ ("error", JStr "Internal server error");
           ("message", JStr "An unexpected error occurred") ].
Proof.
  split; [reflexivity|]. split; [reflexivity|]. split; [reflexivity|].
  apply (server_error_hides_its_cause malformed_purchase warm_world warm_world);
    reflexivity.
Defined.

(** X11.  The history route only reads: whatever the store does and
    whatever the answer, the durable rows and the payment requests are
    those from before the call. *)
Theorem history_route_only_reads (event : Event) (w : World) :
  history_route event ->
  committed (snd (handler event w)) = committed w /\
  authorized (snd (handler event w)) = authorized w.
Proof.
  intros Hr. rewrite (handler_history event w Hr).
  destruct (body event) as [[v|]|v]; try (split; reflexivity);
    (destruct (playerId_of (path_of event)) as [[|ch p]|]; try (split; reflexivity);
     destruct (getPlayerTransactions_keeps (String ch p) None w) as (Hc & Ha & _);
     destruct (getPlayerTransactions (String ch p) None w) as [[rows|e] w1];
     cbn [snd] in *; split; assumption).
Qed.

Lemma history_route_only_reads_witness :
  history_route history_of_alice /\
  committed (snd (handler history_of_alice warm_world)) = committed warm_world /\
  authorized (snd (handler history_of_alice warm_world)) = authorized warm_world.
Proof.
  split; [split; reflexivity|].
  apply (history_route_only_reads history_of_alice warm_world).
  split; reflexivity.
Defined.

(** X12.  The health check never throws: it answers 200 or 503, 200 when
    the store rejects nothing, and it leaves the durable rows alone. *)
Theorem healthHandler_reports_the_store (w : World) :
  exists r w',
    healthHandler w = (Return r, w') /\
    (statusCode r = 200 \/ statusCode r = 503) /\
    committed w' = committed w /\
    (quiet w -> statusCode r = 200).
Proof.
  destruct w as [cc r s f l u t a d].
  unfold healthHandler, getDbClient, connect, query, next_fault, quiet. cbn.
  destruct cc as [[[|]]|]; cbn; destruct f as [|[|] f]; cbn;
    try (destruct f as [|[|] f]; cbn);
    try (destruct f as [|[|] f]; cbn);
    do 2 eexists; (split; [reflexivity|]); cbn;
    repeat split; auto; try (intros H; cbn in H; discriminate).
Qed.

Lemma healthHandler_reports_the_store_witness :
  quiet warm_world /\
  exists r w',
    healthHandler warm_world = (Return r, w') /\
    (statusCode r = 200 \/ statusCode r = 503) /\
    committed w' = committed warm_world /\
    (quiet warm_world -> statusCode r = 200).
Proof.
  split; [reflexivity|].
  apply (healthHandler_reports_the_store warm_world).
Defined.

(** ** What [purchaseSchema] accepts *)

Lemma check_rules_nil {R : Type} (b : bool) (test : R -> option string) (rules : list R) :
  Joi.check_rules b test rules = [] <-> Forall (fun r => test r = None) rules.
Proof.
  induction rules as [|r rules IH]; cbn.
  - split; [constructor | reflexivity].
  - destruct (test r) eqn:E.
    + split; [destruct b; discriminate | intros H; inversion H; congruence].
    + rewrite IH. split; [intros H; constructor; assumption | intros H; inversion H; assumption].
Qed.

Lemma check_keys_hit (b : bool) (schema : list (string * Joi.Key)) (obj : JsValue)
      (k : string) (key : Joi.Key) :
  In (k, key) schema ->
  snd (Joi.check_value b k key (prop k obj)) <> [] ->
  snd (Joi.check_keys b schema obj) <> [].
Proof.
  induction schema as [|[k0 key0] rest IH]; intros Hin Hv; [destruct Hin|].
  cbn [Joi.check_keys].
  destruct (Joi.check_value b k0 key0 (prop k0 obj)) as [v0 e0] eqn:E0.
  destruct Hin as [Heq|Hin].
  - injection Heq as -> ->. rewrite E0 in Hv. cbn [snd] in Hv.
    destruct e0 as [|m e0]; [contradiction|].
    destruct b; cbn; [discriminate|].
    destruct (Joi.check_keys false rest obj); cbn; discriminate.
  - specialize (IH Hin Hv).
    destruct (Joi.check_keys b rest obj) as [vs es]. cbn [snd] in IH.
    destruct e0 as [|m e0]; destruct b; cbn; try discriminate; try assumption.
Qed.

Lemma failed_keys_fail (schema : list (string * Joi.Key)) (fs : list (string * JsValue)) :
  snd (Joi.check_keys true schema (JObj fs)) <> [] ->
  Joi.error (Joi.validate schema (JObj fs)) <> None.
Proof.
  unfold Joi.validate, Joi.validateWith.
  destruct (Joi.check_keys true schema (JObj fs)) as [vs es]. cbn [snd].
  destruct es as [|m es]; [contradiction|]. intros _. cbn. discriminate.
Qed.

(** X13.  A body that lacks a key the schema marks [required()]
    ([player_id], [item_id], [item_name], [price_cents], [currency]) is
    never accepted, whatever else it holds. *)
Theorem missing_required_key_is_rejected
        (fs : list (string * JsValue)) (k : string) :
  required_key purchaseSchema k = true ->
  assoc k fs = None ->
  Joi.error (Joi.validate purchaseSchema (JObj fs)) <> None.
Proof.
  intros Hreq Hk. unfold required_key in Hreq.
  apply existsb_exists in Hreq. destruct Hreq as ([k0 key] & Hin & Hb).
  apply andb_true_iff in Hb. destruct Hb as [Hk0 Hr]. cbn [fst snd] in Hk0, Hr.
  apply String.eqb_eq in Hk0. subst k0.
  apply failed_keys_fail.
  apply (check_keys_hit true purchaseSchema (JObj fs) k key Hin).
  cbn [prop]. rewrite Hk. unfold Joi.check_value. rewrite Hr. cbn. discriminate.
Qed.

Lemma missing_required_key_is_rejected_witness :
  required_key purchaseSchema "currency" = true /\
  assoc "currency" [("player_id", JStr alice); ("item_id", JStr "sword_1");
                    ("item_name", JStr "Sword"); ("price_cents", JNum 1999)] = None /\
  Joi.error (Joi.validate purchaseSchema
               (JObj [("player_id", JStr alice); ("item_id", JStr "sword_1");
                      ("item_name", JStr "Sword"); ("price_cents", JNum 1999)]))
  <> None.
Proof.
  split; [reflexivity|]. split; [reflexivity|].
  apply (missing_required_key_is_rejected
           [("player_id", JStr alice); ("item_id", JStr "sword_1");
            ("item_name", JStr "Sword"); ("price_cents", JNum 1999)] "currency");
    reflexivity.
Defined.

(** X14.  A body with a key outside the schema is never accepted: the
    schema does not allow unknown keys. *)
Theorem unknown_key_is_rejected (fs : list (string * JsValue)) :
  forallb (Joi.known purchaseSchema) (keys (JObj fs)) = false ->
  Joi.error (Joi.validate purchaseSchema (JObj fs)) <> None.
Proof.
  intros Hk. unfold Joi.validate, Joi.validateWith.
  destruct (Joi.check_keys true purchaseSchema (JObj fs)) as [vs es].
  destruct es as [|m es]; cbn [andb Joi.nonempty app Joi.error]; [|discriminate].
  destruct (Joi.check_rules true (Joi.unknown_key purchaseSchema) (keys (JObj fs))) eqn:E;
    cbn [Joi.nonempty]; [|discriminate].
  apply check_rules_nil in E.
  assert (Hall : forallb (Joi.known purchaseSchema) (keys (JObj fs)) = true).
  { apply forallb_forall. intros k Hin. rewrite Forall_forall in E.
    specialize (E k Hin). unfold Joi.unknown_key in E.
    destruct (Joi.known purchaseSchema k); [reflexivity | discriminate]. }
  congruence.
Qed.

Lemma unknown_key_is_rejected_witness :
  forallb (Joi.known purchaseSchema)
          (keys (JObj [("player_id", JStr alice); ("status", JStr "completed")])) = false /\
  Joi.error (Joi.validate purchaseSchema
               (JObj [("player_id", JStr alice); ("status", JStr "completed")]))
  <> None.
Proof.
  split; [reflexivity|].
  apply (unknown_key_is_rejected [("player_id", JStr alice); ("status", JStr "completed")]).
  reflexivity.
Defined.


Lemma check_keys_cons_ok (k : string) (key : Joi.Key) (rest : list (string * Joi.Key))
      (obj : JsValue) (vs : list (string * JsValue)) :
  Joi.check_keys true ((k, key) :: rest) obj = (vs, []) ->
  exists v' vs',
    Joi.check_value true k key (prop k obj) = (v', []) /\
    Joi.check_keys true rest obj = (vs', []) /\
    vs = match v' with JUndefined => vs' | _ => (k, v') :: vs' end.
Proof.
  cbn [Joi.check_keys].
  destruct (Joi.check_value true k key (prop k obj)) as [v e].
  destruct e as [|m e]; cbn; [|discriminate].
  destruct (Joi.check_keys true rest obj) as [vs' e']. cbn.
  intros H. injection H as <- ->. exists v, vs'. auto.
Qed.

Lemma string_key_ok (k : string) (rules : list Joi.StringRule) (v v' : JsValue) :
  Joi.check_value true k (Joi.mkKey (Joi.string_ rules) true JUndefined) v = (v', []) ->
  exists s,
    v = JStr s /\ String.eqb s "" = false /\
    v' = JStr (if Joi.converts_upper rules then Joi.upper s else s) /\
    Forall (fun r => Joi.string_rule (Joi.label k)
                       (if Joi.converts_upper rules then Joi.upper s else s) r = None)
           rules.
Proof.
  unfold Joi.check_value. cbn [Joi.required Joi.type].
  destruct v; try discriminate.
  destruct (String.eqb s "") eqn:E; [discriminate|].
  intros H. injection H as <- H. apply check_rules_nil in H.
  exists s. auto.
Qed.

Lemma number_key_ok (k : string) (rules : list Joi.NumberRule) (req : bool)
      (dflt v v' : JsValue) :
  Joi.check_value true k (Joi.mkKey (Joi.number_ rules) req dflt) v = (v', []) ->
  (v = JUndefined /\ req = false /\ v' = dflt) \/
  exists q,
    Joi.to_number v = Some q /\ Joi.unsafe q = false /\ v' = JNum q /\
    Forall (fun r => Joi.number_rule (Joi.label k) q r = None) rules.
Proof.
  unfold Joi.check_value. cbn [Joi.required Joi.type Joi.default].
  destruct v;
    try (destruct req; [discriminate|]; intros H; injection H as <-; left; auto; fail);
    (destruct (Joi.to_number _) as [x|] eqn:E; [|discriminate];
     destruct (Joi.unsafe x) eqn:U; [discriminate|];
     intros H; injection H as <- H; apply check_rules_nil in H;
     right; exists x; auto).
Qed.

Lemma object_key_ok (k : string) (v v' : JsValue) :
  Joi.check_value true k (Joi.mkKey Joi.object_ false JUndefined) v = (v', []) ->
  v' = v /\ (v = JUndefined \/ exists fs, v = JObj fs).
Proof.
  unfold Joi.check_value. cbn [Joi.required Joi.type Joi.default].
  destruct v; try discriminate; intros H; injection H as <-; split; eauto.
Qed.

Lemma integer_within (l : string) (q : Q) (lo hi : Z) :
  Forall (fun r => Joi.number_rule l q r = None)
         [Joi.Integer; Joi.Min lo; Joi.Max hi] ->
  lo <= Qfloor q <= hi.
Proof.
  intros H. inversion H as [|? ? Hi H1]; subst. inversion H1 as [|? ? Hlo H2]; subst.
  inversion H2 as [|? ? Hhi _]; subst. clear H H1 H2.
  unfold Joi.number_rule in Hi, Hlo, Hhi.
  destruct (Joi.is_integer q) eqn:Ei; [|discriminate].
  destruct (Qle_bool (inject_Z lo) q) eqn:El; [|discriminate].
  destruct (Qle_bool q (inject_Z hi)) eqn:Eh; [|discriminate].
  unfold Joi.is_integer in Ei. apply Qeq_bool_iff in Ei.
  apply Qle_bool_iff in El, Eh. rewrite <- Ei in El, Eh.
  rewrite <- Zle_Qle in El, Eh. lia.
Qed.
Lemma upper_char_idempotent (c : ascii) :
  Joi.upper_char (Joi.upper_char c) = Joi.upper_char c.
Proof.
  destruct c as [[|] [|] [|] [|] [|] [|] [|] [|]]; vm_compute; reflexivity.
Qed.

Lemma upper_idempotent (s : string) : Joi.upper (Joi.upper s) = Joi.upper s.
Proof.
  induction s as [|c s IH]; cbn; [reflexivity|].
  rewrite upper_char_idempotent, IH. reflexivity.
Qed.

Lemma upper_length (s : string) : String.length (Joi.upper s) = String.length s.
Proof.
  induction s as [|c s IH]; cbn; [reflexivity | rewrite IH; reflexivity].
Qed.

(** The conversion of ASCII text is ASCII text. *)
Lemma upper_char_ascii (c : ascii) :
  N.ltb (Joi.code c) 128 = true -> N.ltb (Joi.code (Joi.upper_char c)) 128 = true.
Proof.
  destruct c as [[|] [|] [|] [|] [|] [|] [|] [|]]; vm_compute; intros H;
    first [reflexivity | discriminate H].
Qed.

Lemma upper_ascii_text (s : string) :
  Joi.ascii_text s = true -> Joi.ascii_text (Joi.upper s) = true.
Proof.
  unfold Joi.ascii_text.
  induction s as [|c s IH]; cbn [Joi.upper list_ascii_of_string forallb];
    [reflexivity|].
  intros H. apply andb_true_iff in H. destruct H as [Hc Hs].
  rewrite (upper_char_ascii c Hc), (IH Hs). reflexivity.
Qed.

Lemma uuid_rule_ok (l s : string) :
  Joi.string_rule l s Joi.Uuid = None -> Joi.guid s = true.
Proof. unfold Joi.string_rule. destruct (Joi.guid s); [reflexivity | discriminate]. Qed.

Lemma max_rule_ok (l s : string) (n : nat) :
  Joi.string_rule l s (Joi.MaxLength n) = None -> (String.length s <= n)%nat.
Proof.
  unfold Joi.string_rule. destruct (Nat.leb (String.length s) n) eqn:E; [|discriminate].
  intros _. apply Nat.leb_le, E.
Qed.

Lemma length_rule_ok (l s : string) (n : nat) :
  Joi.string_rule l s (Joi.Length n) = None -> String.length s = n.
Proof.
  unfold Joi.string_rule. destruct (Nat.eqb (String.length s) n) eqn:E; [|discriminate].
  intros _. apply Nat.eqb_eq, E.
Qed.

(** The accepted value with all keys but [metadata] present. *)
Lemma purchase_of_accepted (s1 s2 s3 s5 : string) (q4 q6 : Q)
      (rest : list (string * JsValue)) :
  purchase_of ([ ("player_id", JStr s1); ("item_id", JStr s2); ("item_name", JStr s3);
                 ("price_cents", JNum q4); ("currency", JStr s5);
                 ("quantity", JNum q6) ] ++ rest)
  = Purchase.mk s1 s2 s3 (Qfloor q4) s5 (Qfloor q6) (prop "metadata" (JObj rest)).
Proof. reflexivity. Qed.

(** X15.  Whatever body is accepted, the value handed to
    [processPurchase] is within the bounds of the schema, which are those
    of the table: [player_id] is a GUID, [item_id] and [item_name] are not
    empty, [item_name] has at most 255 characters, [price_cents] is
    between 1 and 99999999, [currency] has 3 characters and is in upper
    case, [quantity] is between 1 and 100, and [metadata] is absent or an
    object. *)
Theorem accepted_purchase_is_within_bounds
        (input : JsValue) (fields : list (string * JsValue)) :
  Joi.validate purchaseSchema input = Joi.mkResult None (Some fields) ->
  Joi.guid (Purchase.player_id (purchase_of fields)) = true /\
  String.eqb (Purchase.item_id (purchase_of fields)) "" = false /\
  String.eqb (Purchase.item_name (purchase_of fields)) "" = false /\
  (String.length (Purchase.item_name (purchase_of fields)) <= 255)%nat /\
  1 <= Purchase.price_cents (purchase_of fields) <= 99999999 /\
  String.length (Purchase.currency (purchase_of fields)) = 3%nat /\
  Joi.upper (Purchase.currency (purchase_of fields))
  = Purchase.currency (purchase_of fields) /\
  1 <= Purchase.quantity (purchase_of fields) <= 100 /\
  (Purchase.metadata (purchase_of fields) = JUndefined \/
   exists fs, Purchase.metadata (purchase_of fields) = JObj fs).
Proof.
  unfold Joi.validate, Joi.validateWith.
  destruct input as [ | |b|q|s|t|items|fs].
  1-7: discriminate.
  destruct (Joi.check_keys true purchaseSchema (JObj fs)) as [vs es] eqn:E.
  destruct es as [|m es]; cbn [andb Joi.nonempty app]; [|discriminate].
  destruct (Joi.check_rules true (Joi.unknown_key purchaseSchema) (keys (JObj fs)));
    cbn [Joi.nonempty]; [|discriminate].
  intros H. injection H as <-.
  unfold purchaseSchema in E.
  apply check_keys_cons_ok in E. destruct E as (v1 & vs1 & E1 & E & Hvs).
  apply string_key_ok in E1. destruct E1 as (s1 & _ & _ & -> & R1). subst vs.
  apply check_keys_cons_ok in E. destruct E as (v2 & vs2 & E2 & E & Hvs).
  apply string_key_ok in E2. destruct E2 as (s2 & _ & N2 & -> & _). subst vs1.
  apply check_keys_cons_ok in E. destruct E as (v3 & vs3 & E3 & E & Hvs).
  apply string_key_ok in E3. destruct E3 as (s3 & _ & N3 & -> & R3). subst vs2.
  apply check_keys_cons_ok in E. destruct E as (v4 & vs4 & E4 & E & Hvs).
  apply number_key_ok in E4. destruct E4 as [(_ & Hreq & _)|(q4 & _ & _ & -> & R4)];
    [discriminate|].
  subst vs3. apply integer_within in R4.
  apply check_keys_cons_ok in E. destruct E as (v5 & vs5 & E5 & E & Hvs).
  apply string_key_ok in E5. destruct E5 as (s5 & _ & _ & -> & R5). subst vs4.
  apply check_keys_cons_ok in E. destruct E as (v6 & vs6 & E6 & E & Hvs).
  assert (Hq : exists q6, v6 = JNum q6 /\ 1 <= Qfloor q6 <= 100).
  { apply number_key_ok in E6.
    destruct E6 as [(_ & _ & E6)|(q6 & _ & _ & E6 & R6)].
    - exists 1%Q. split; [exact E6 | cbv; split; discriminate].
    - exists q6. split; [exact E6 | apply integer_within in R6; exact R6]. }
  destruct Hq as (q6 & -> & B6). subst vs5.
  apply check_keys_cons_ok in E. destruct E as (v7 & vs7 & E7 & E & Hvs).
  cbn [Joi.check_keys] in E. injection E as <-.
  apply object_key_ok in E7. destruct E7 as (-> & Hm).
  assert (Hrest : vs6 = [] \/ exists ms, vs6 = [("metadata", JObj ms)]).
  { destruct Hm as [Hm|(ms & Hm)]; rewrite Hm in Hvs; subst vs6;
      [left | right; exists ms]; reflexivity. }
  clear Hvs Hm.
  cbn [Joi.converts_upper existsb orb] in *.
  apply Forall_inv in R1. apply uuid_rule_ok in R1.
  apply Forall_inv in R3. apply max_rule_ok in R3.
  apply Forall_inv in R5. apply length_rule_ok in R5.
  assert (Hmeta : prop "metadata" (JObj vs6) = JUndefined \/
                  exists ms, prop "metadata" (JObj vs6) = JObj ms).
  { destruct Hrest as [->|(ms & ->)]; [left | right; exists ms]; reflexivity. }
  match goal with
  | |- context [purchase_of (?a :: ?b :: ?c :: ?d :: ?e :: ?f :: ?rest)] =>
      change (purchase_of (a :: b :: c :: d :: e :: f :: rest))
        with (purchase_of ([a; b; c; d; e; f] ++ rest));
      rewrite purchase_of_accepted
  end.
  cbn [Purchase.player_id Purchase.item_id Purchase.item_name Purchase.price_cents
       Purchase.currency Purchase.quantity Purchase.metadata].
  rewrite upper_idempotent.
  repeat split; try assumption; try lia.
Qed.

Lemma accepted_purchase_is_within_bounds_witness :
  Joi.validate purchaseSchema sword_body
  = Joi.mkResult None
      (Some [ ("player_id", JStr alice); ("item_id", JStr "sword_1");
              ("item_name", JStr "Sword"); ("price_cents", JNum (inject_Z 1999));
              ("currency", JStr "USD"); ("quantity", JNum (inject_Z 1)) ]) /\
  let fields := [ ("player_id", JStr alice); ("item_id", JStr "sword_1");
                  ("item_name", JStr "Sword"); ("price_cents", JNum (inject_Z 1999));
                  ("currency", JStr "USD"); ("quantity", JNum (inject_Z 1)) ] in
  Joi.guid (Purchase.player_id (purchase_of fields)) = true /\
  String.eqb (Purchase.item_id (purchase_of fields)) "" = false /\
  String.eqb (Purchase.item_name (purchase_of fields)) "" = false /\
  (String.length (Purchase.item_name (purchase_of fields)) <= 255)%nat /\
  1 <= Purchase.price_cents (purchase_of fields) <= 99999999 /\
  String.length (Purchase.currency (purchase_of fields)) = 3%nat /\
  Joi.upper (Purchase.currency (purchase_of fields))
  = Purchase.currency (purchase_of fields) /\
  1 <= Purchase.quantity (purchase_of fields) <= 100 /\
  (Purchase.metadata (purchase_of fields) = JUndefined \/
   exists fs, Purchase.metadata (purchase_of fields) = JObj fs).
Proof.
  split; [reflexivity|].
  apply (accepted_purchase_is_within_bounds sword_body). reflexivity.
Defined.

(** ** Well-formed requests *)

Lemma string_value_ok (b : bool) (k : string) (rules : list Joi.StringRule) (s : string) :
  String.eqb s "" = false ->
  Forall (fun r => Joi.string_rule (Joi.label k)
                     (if Joi.converts_upper rules then Joi.upper s else s) r = None)
         rules ->
  Joi.check_value b k (Joi.mkKey (Joi.string_ rules) true JUndefined) (JStr s)
  = (JStr (if Joi.converts_upper rules then Joi.upper s else s), []).
Proof.
  intros Hs Hr. unfold Joi.check_value. cbn [Joi.required Joi.type]. rewrite Hs.
  apply check_rules_nil with (b := b) in Hr. rewrite Hr. reflexivity.
Qed.

Lemma number_value_ok (b : bool) (k : string) (req : bool) (dflt : JsValue)
      (n lo hi : Z) :
  lo <= n <= hi ->
  - Joi.MAX_SAFE_INTEGER <= lo -> hi <= Joi.MAX_SAFE_INTEGER ->
  Joi.check_value b k (Joi.mkKey (Joi.number_ [Joi.Integer; Joi.Min lo; Joi.Max hi])
                                 req dflt)
                  (JNum (inject_Z n))
  = (JNum (inject_Z n), []).
Proof.
  intros Hn Hlo Hhi. unfold Joi.check_value.
  cbn [Joi.required Joi.type Joi.to_number].
  assert (Hle : forall a c, a <= c -> Qle_bool (inject_Z a) (inject_Z c) = true)
    by (intros a c H; apply Qle_bool_iff; rewrite <- Zle_Qle; exact H).
  assert (Hu : Joi.unsafe (inject_Z n) = false).
  { unfold Joi.unsafe. rewrite !Hle by lia. reflexivity. }
  rewrite Hu.
  assert (Hr : Joi.check_rules b (Joi.number_rule (Joi.label k) (inject_Z n))
                               [Joi.Integer; Joi.Min lo; Joi.Max hi] = []).
  { apply check_rules_nil. repeat constructor; unfold Joi.number_rule.
    - unfold Joi.is_integer. rewrite Qfloor_Z.
      assert (Qeq_bool (inject_Z n) (inject_Z n) = true) as ->
        by (apply Qeq_bool_iff; reflexivity).
      reflexivity.
    - rewrite Hle by lia. reflexivity.
    - rewrite Hle by lia. reflexivity. }
  rewrite Hr. reflexivity.
Qed.

Lemma prop_body_of (player item name currency : string) (price : Z) (quantity : option Z) :
  let b := body_of player item name currency price quantity in
  prop "player_id" b = JStr player /\
  prop "item_id" b = JStr item /\
  prop "item_name" b = JStr name /\
  prop "price_cents" b = JNum (inject_Z price) /\
  prop "currency" b = JStr currency /\
  prop "quantity" b = match quantity with
                      | Some n => JNum (inject_Z n)
                      | None => JUndefined
                      end /\
  prop "metadata" b = JUndefined /\
  Forall (fun k => Joi.unknown_key purchaseSchema k = None) (keys b).
Proof.
  destruct quantity; cbn; repeat split; repeat constructor.
Qed.

Lemma guid_nonempty (s : string) : Joi.guid s = true -> String.eqb s "" = false.
Proof. destruct s; [discriminate | reflexivity]. Qed.

Lemma validate_well_formed (player item name currency : string) (price : Z)
      (quantity : option Z) :
  well_formed player item name currency price quantity = true ->
  Joi.validate purchaseSchema (body_of player item name currency price quantity)
  = Joi.mkResult None
      (Some [ ("player_id", JStr player); ("item_id", JStr item);
              ("item_name", JStr name); ("price_cents", JNum (inject_Z price));
              ("currency", JStr (Joi.upper currency));
              ("quantity", JNum (inject_Z (match quantity with
                                          | Some n => n
                                          | None => 1
                                          end))) ]).
Proof.
  unfold well_formed. rewrite !andb_true_iff, !negb_true_iff.
  intros (((((((Hg & Hi) & Hn) & Hl) & Hp1) & Hp2) & Hc) & Hq).
  apply Z.leb_le in Hp1, Hp2. apply Nat.eqb_eq in Hc. apply Nat.leb_le in Hl.
  destruct (prop_body_of player item name currency price quantity)
    as (P1 & P2 & P3 & P4 & P5 & P6 & P7 & Pu).
  assert (Hcur : String.eqb currency "" = false)
    by (destruct currency; [discriminate Hc | reflexivity]).
  assert (V1 := string_value_ok true "player_id" [Joi.Uuid] player (guid_nonempty _ Hg)).
  assert (V2 := string_value_ok true "item_id" [] item Hi).
  assert (V3 := string_value_ok true "item_name" [Joi.MaxLength 255] name Hn).
  assert (V4 := number_value_ok true "price_cents" true JUndefined price 1 99999999).
  assert (V5 := string_value_ok true "currency" [Joi.Length 3; Joi.Uppercase] currency Hcur).
  cbn [Joi.converts_upper existsb orb] in V1, V2, V3, V5.
  rewrite <- (upper_length currency) in Hc.
  assert (K : Joi.check_keys true purchaseSchema
                (body_of player item name currency price quantity)
              = ([ ("player_id", JStr player); ("item_id", JStr item);
                   ("item_name", JStr name); ("price_cents", JNum (inject_Z price));
                   ("currency", JStr (Joi.upper currency));
                   ("quantity", JNum (inject_Z (match quantity with
                                               | Some n => n
                                               | None => 1
                                               end))) ], [])).
  { unfold purchaseSchema. cbn [Joi.check_keys].
    rewrite P1, P2, P3, P4, P5, P6, P7.
    rewrite V1, V2, V3, V4, V5; try (unfold Joi.MAX_SAFE_INTEGER; lia).
    - destruct quantity as [n|].
      + apply andb_true_iff in Hq. destruct Hq as [Hq1 Hq2].
        apply Z.leb_le in Hq1, Hq2.
        rewrite (number_value_ok true "quantity" false (JNum 1) n 1 100);
          try (unfold Joi.MAX_SAFE_INTEGER; lia).
        reflexivity.
      + reflexivity.
    - repeat constructor. unfold Joi.string_rule.
      rewrite Hc. reflexivity.
    - repeat constructor. unfold Joi.string_rule.
      apply Nat.leb_le in Hl. rewrite Hl. reflexivity.
    - constructor.
    - repeat constructor. unfold Joi.string_rule. rewrite Hg. reflexivity. }
  unfold Joi.validate, Joi.validateWith.
  unfold body_of at 1. rewrite K. cbn [andb Joi.nonempty app].
  apply (check_rules_nil true) in Pu. rewrite Pu. reflexivity.
Qed.

(** X16.  A request whose name and currency are ASCII text and whose
    fields meet the constraints of the schema is accepted, and the value
    handed on is the request with its currency in upper case (three
    characters of ASCII text again) and its quantity set to 1 when it was
    left out. *)
Theorem well_formed_purchase_is_accepted
        (player item name currency : string) (price : Z) (quantity : option Z) :
  Joi.ascii_text name = true ->
  Joi.ascii_text currency = true ->
  well_formed player item name currency price quantity = true ->
  Joi.error (Joi.validate purchaseSchema
                          (body_of player item name currency price quantity)) = None /\
  option_map purchase_of
             (Joi.value (Joi.validate purchaseSchema
                                      (body_of player item name currency price quantity)))
  = Some (Purchase.mk player item name price (Joi.upper currency)
                      (match quantity with Some n => n | None => 1 end)
                      JUndefined) /\
  Joi.ascii_text (Joi.upper currency) = true /\
  String.length (Joi.upper currency) = 3%nat.
Proof.
  intros _ Hc H. rewrite (validate_well_formed _ _ _ _ _ _ H). split; [reflexivity|].
  split; [|split; [exact (upper_ascii_text currency Hc)|
                   rewrite upper_length; unfold well_formed in H;
                   rewrite !andb_true_iff in H;
                   destruct H as [[_ H] _]; apply Nat.eqb_eq in H; exact H]].
  cbn [Joi.value option_map]. f_equal.
  change [ ("player_id", JStr player); ("item_id", JStr item); ("item_name", JStr name);
           ("price_cents", JNum (inject_Z price));
           ("currency", JStr (Joi.upper currency));
           ("quantity", JNum (inject_Z (match quantity with
                                       | Some n => n
                                       | None => 1
                                       end))) ]
    with ([ ("player_id", JStr player); ("item_id", JStr item); ("item_name", JStr name);
            ("price_cents", JNum (inject_Z price));
            ("currency", JStr (Joi.upper currency));
            ("quantity", JNum (inject_Z (match quantity with
                                        | Some n => n
                                        | None => 1
                                        end))) ] ++ []).
  rewrite purchase_of_accepted, !Qfloor_Z. reflexivity.
Qed.

Lemma well_formed_purchase_is_accepted_witness :
  Joi.ascii_text "Sword" = true /\
  Joi.ascii_text "usd" = true /\
  well_formed alice "sword_1" "Sword" "usd" 1999 None = true /\
  Joi.error (Joi.validate purchaseSchema
                          (body_of alice "sword_1" "Sword" "usd" 1999 None)) = None /\
  option_map purchase_of
             (Joi.value (Joi.validate purchaseSchema
                                      (body_of alice "sword_1" "Sword" "usd" 1999 None)))
  = Some (Purchase.mk alice "sword_1" "Sword" 1999 (Joi.upper "usd")
                      (match @None Z with Some n => n | None => 1 end)
                      JUndefined) /\
  Joi.ascii_text (Joi.upper "usd") = true /\
  String.length (Joi.upper "usd") = 3%nat.
Proof.
  split; [reflexivity|]. split; [reflexivity|]. split; [reflexivity|].
  apply (well_formed_purchase_is_accepted alice "sword_1" "Sword" "usd" 1999 None);
    reflexivity.
Defined.

(** X17.  For requests whose fields have the types the schema asks for
    and whose name and currency are ASCII text, validation accepts
    exactly those that meet its constraints: a price of 0 or of
    100000000, a quantity of 0 or of 101, a currency of two letters, a
    player id that is no GUID, an empty item id or name are all refused,
    and nothing else is. *)
Theorem typed_purchase_accepted_iff
        (player item name currency : string) (price : Z) (quantity : option Z) :
  Joi.ascii_text name = true ->
  Joi.ascii_text currency = true ->
  (Joi.error (Joi.validate purchaseSchema
                           (body_of player item name currency price quantity)) = None
   <-> well_formed player item name currency price quantity = true).
Proof.
  intros _ _.
  split; [|intros H; rewrite (validate_well_formed _ _ _ _ _ _ H); reflexivity].
  destruct (prop_body_of player item name currency price quantity)
    as (P1 & P2 & P3 & P4 & P5 & P6 & P7 & _).
  unfold Joi.validate, Joi.validateWith. unfold body_of at 1.
  destruct (Joi.check_keys true purchaseSchema
              (body_of player item name currency price quantity)) as [vs es] eqn:E.
  destruct es as [|m es]; cbn [andb Joi.nonempty app Joi.error]; [|discriminate].
  intros _. unfold purchaseSchema in E.
  apply check_keys_cons_ok in E. destruct E as (v1 & vs1 & E1 & E & _).
  apply check_keys_cons_ok in E. destruct E as (v2 & vs2 & E2 & E & _).
  apply check_keys_cons_ok in E. destruct E as (v3 & vs3 & E3 & E & _).
  apply check_keys_cons_ok in E. destruct E as (v4 & vs4 & E4 & E & _).
  apply check_keys_cons_ok in E. destruct E as (v5 & vs5 & E5 & E & _).
  apply check_keys_cons_ok in E. destruct E as (v6 & vs6 & E6 & _ & _).
  rewrite P1 in E1. rewrite P2 in E2. rewrite P3 in E3. rewrite P4 in E4.
  rewrite P5 in E5. rewrite P6 in E6.
  apply string_key_ok in E1. destruct E1 as (s1 & H1 & _ & _ & R1).
  injection H1 as <-.
  apply string_key_ok in E2. destruct E2 as (s2 & H2 & N2 & _ & _).
  injection H2 as <-.
  apply string_key_ok in E3. destruct E3 as (s3 & H3 & N3 & _ & R3).
  injection H3 as <-.
  apply string_key_ok in E5. destruct E5 as (s5 & H5 & _ & _ & R5).
  injection H5 as <-.
  cbn [Joi.converts_upper existsb orb] in R1, R3, R5.
  apply Forall_inv in R1. apply uuid_rule_ok in R1.
  apply Forall_inv in R3. apply max_rule_ok in R3. apply Nat.leb_le in R3.
  apply Forall_inv in R5. apply length_rule_ok in R5. rewrite upper_length in R5.
  apply number_key_ok in E4. destruct E4 as [(H4 & _)|(q4 & H4 & _ & _ & R4)];
    [discriminate|].
  cbn [Joi.to_number] in H4. injection H4 as <-.
  apply integer_within in R4. rewrite Qfloor_Z in R4.
  assert (Hq : match quantity with
               | Some n => (Z.leb 1 n && Z.leb n 100)%bool
               | None => true
               end = true).
  { destruct quantity as [n|]; [|reflexivity].
    apply number_key_ok in E6. destruct E6 as [(H6 & _)|(q6 & H6 & _ & _ & R6)];
      [discriminate|].
    cbn [Joi.to_number] in H6. injection H6 as <-.
    apply integer_within in R6. rewrite Qfloor_Z in R6.
    apply andb_true_iff. split; apply Z.leb_le; lia. }
  unfold well_formed. rewrite R1, N2, N3, R3, R5, Hq, Nat.eqb_refl.
  destruct R4 as [Ha Hb]. apply Z.leb_le in Ha, Hb. rewrite Ha, Hb. reflexivity.
Qed.

Lemma typed_purchase_accepted_iff_witness :
  Joi.ascii_text "Sword" = true /\
  Joi.ascii_text "usd" = true /\
  (Joi.error (Joi.validate purchaseSchema
                           (body_of alice "sword_1" "Sword" "usd" 1999 (Some 2))) = None
   <-> well_formed alice "sword_1" "Sword" "usd" 1999 (Some 2) = true).
Proof.
  split; [reflexivity|]. split; [reflexivity|].
  apply (typed_purchase_accepted_iff alice "sword_1" "Sword" "usd" 1999 (Some 2));
    reflexivity.
Defined.

(** X18.  End to end: a well-formed purchase request, its name and
    currency ASCII text, sent to [POST /purchase] in a world where the
    store rejects nothing is answered 201 with the response of the
    pipeline for the normalised request; the row with its final status is
    stored and the payment processor has been asked for the price. *)
Theorem well_formed_purchase_end_to_end
        (event : Event) (w : World)
        (player item name currency : string) (price : Z) (quantity : option Z) :
  fst (parseBody event w) = Return (body_of player item name currency price quantity) ->
  method_of event = Some "POST" ->
  path_of event = Some "/purchase" ->
  Joi.ascii_text name = true ->
  Joi.ascii_text currency = true ->
  well_formed player item name currency price quantity = true ->
  quiet w ->
  exists w',
    handler event w
    = (Return (json 201 (response_of
                           (uuid_of_seed (uuid_seed w))
                           (Purchase.mk player item name price (Joi.upper currency)
                                        (match quantity with Some n => n | None => 1 end)
                                        JUndefined))), w') /\
    In (stored_row (Purchase.mk player item name price (Joi.upper currency)
                                (match quantity with Some n => n | None => 1 end)
                                JUndefined) w)
       (committed w') /\
    authorized w' = authorized w ++ [Payment.mk price (Joi.upper currency) player].
Proof.
  intros Hb Hm Hp _ _ Hwf Hq. rewrite handler_cases, Hb, Hm, Hp.
  cbn [equals andb]. rewrite !String.eqb_refl. cbn [andb].
  rewrite (validate_well_formed _ _ _ _ _ _ Hwf). cbn [Joi.error Joi.value option_map].
  change [ ("player_id", JStr player); ("item_id", JStr item); ("item_name", JStr name);
           ("price_cents", JNum (inject_Z price));
           ("currency", JStr (Joi.upper currency));
           ("quantity", JNum (inject_Z (match quantity with
                                       | Some n => n
                                       | None => 1
                                       end))) ]
    with ([ ("player_id", JStr player); ("item_id", JStr item); ("item_name", JStr name);
            ("price_cents", JNum (inject_Z price));
            ("currency", JStr (Joi.upper currency));
            ("quantity", JNum (inject_Z (match quantity with
                                        | Some n => n
                                        | None => 1
                                        end))) ] ++ []).
  rewrite purchase_of_accepted, !Qfloor_Z.
  change (prop "metadata" (JObj [])) with JUndefined.
  destruct (processPurchase_quiet
              (Purchase.mk player item name price (Joi.upper currency)
                           (match quantity with Some n => n | None => 1 end)
                           JUndefined) w Hq) as (w' & E & Ha & Hin).
  rewrite E. exists w'. split; [reflexivity|]. split; [exact Hin | exact Ha].
Qed.

Lemma well_formed_purchase_end_to_end_witness :
  fst (parseBody sword_purchase fresh_world)
  = Return (body_of alice "sword_1" "Sword" "usd" 1999 None) /\
  method_of sword_purchase = Some "POST" /\
  path_of sword_purchase = Some "/purchase" /\
  Joi.ascii_text "Sword" = true /\
  Joi.ascii_text "usd" = true /\
  well_formed alice "sword_1" "Sword" "usd" 1999 None = true /\
  quiet fresh_world /\
  exists w',
    handler sword_purchase fresh_world
    = (Return (json 201 (response_of
                           (uuid_of_seed (uuid_seed fresh_world))
                           (Purchase.mk alice "sword_1" "Sword" 1999 (Joi.upper "usd")
                                        (match @None Z with Some n => n | None => 1 end)
                                        JUndefined))), w') /\
    In (stored_row (Purchase.mk alice "sword_1" "Sword" 1999 (Joi.upper "usd")
                                (match @None Z with Some n => n | None => 1 end)
                                JUndefined) fresh_world)
       (committed w') /\
    authorized w' = authorized fresh_world ++ [Payment.mk 1999 (Joi.upper "usd") alice].
Proof.
  split; [reflexivity|]. split; [reflexivity|]. split; [reflexivity|].
  split; [reflexivity|]. split; [reflexivity|]. split; [reflexivity|].
  split; [reflexivity|].
  apply (well_formed_purchase_end_to_end
           sword_purchase fresh_world alice "sword_1" "Sword" "usd" 1999 None);
    reflexivity.
Defined.

(** ** Purchases and the history read together *)

Lemma processPurchase_quiet_state (d : Purchase.data) (w : World) :
  quiet w ->
  exists v w',
    processPurchase (Some d) w = (Return v, w') /\
    quiet w' /\ session w' = None /\ In (stored_row d w) (committed w').
Proof.
  intros H.
  destruct (getDbClient_quiet w H) as (c & w1 & E1 & H1 & _ & Ha & Hu & Ht).
  destruct (processPurchase_try_quiet d w1 H1) as (w2 & E2 & H2 & _ & Hs & Hin).
  do 2 eexists. unfold processPurchase. cbn [bind catch Monad_Js MonadExc_Js].
  rewrite E1, E2. split; [reflexivity|]. unfold stored_row, pending_row in *.
  rewrite <- Hu, <- Ht. auto.
Qed.

(** X19.  A purchase shows in the history: when the store rejects
    nothing, the row [processPurchase] stores is among the rows a history
    read for the same player returns right after, as long as the player
    has no more rows than the limit of the read. *)
Theorem purchase_shows_in_history (d : Purchase.data) (w : World) (limit : option nat) :
  quiet w ->
  exists v w' rows w'',
    processPurchase (Some d) w = (Return v, w') /\
    getPlayerTransactions (Purchase.player_id d) limit w' = (Return rows, w'') /\
    ((List.length (filter (of_player (Purchase.player_id d)) (committed w'))
      <= match limit with Some n => n | None => 100 end)%nat ->
     In (stored_row d w) rows).
Proof.
  intros H.
  destruct (processPurchase_quiet_state d w H) as (v & w' & E & Hq & Hs & Hin).
  destruct (getPlayerTransactions_quiet (Purchase.player_id d) limit w' Hq)
    as (rows & w'' & E').
  exists v, w', rows, w''. split; [exact E|]. split; [exact E'|].
  intros Hlen.
  assert (Hvis : visible w'' = committed w').
  { apply (f_equal snd) in E'. cbn [snd] in E'. subst w''.
    unfold getPlayerTransactions. cbn [bind Monad_Js].
    pose proof (getDbClient_committed w') as Hc.
    pose proof (getDbClient_session_none w' Hs) as Hn.
    destruct (getDbClient w') as [[c|e] w1]; cbn [snd] in *.
    - destruct (query_select_rows (Purchase.player_id d)
                  (match limit with Some n => n | None => 100%nat end) w1)
        as (Q1 & Q2 & _).
      unfold visible. rewrite Q2, Hn, Q1. exact Hc.
    - unfold visible. rewrite Hn. exact Hc. }
  apply getPlayerTransactions_rows in E'. destruct E' as [-> _]. rewrite Hvis.
  rewrite firstn_all2
    by (rewrite <- (Permutation_length (order_by_created_desc_perm _)); exact Hlen).
  apply (Permutation_in _ (order_by_created_desc_perm _)).
  apply filter_In. split; [exact Hin|].
  unfold of_player, stored_row, pending_row. cbn. apply String.eqb_refl.
Qed.

Lemma purchase_shows_in_history_witness :
  quiet warm_world /\
  exists v w' rows w'',
    processPurchase (Some sword) warm_world = (Return v, w') /\
    getPlayerTransactions (Purchase.player_id sword) None w' = (Return rows, w'') /\
    ((List.length (filter (of_player (Purchase.player_id sword)) (committed w'))
      <= match @None nat with Some n => n | None => 100 end)%nat ->
     In (stored_row sword warm_world) rows).
Proof.
  split; [reflexivity|].
  apply (purchase_shows_in_history sword warm_world None). reflexivity.
Defined.



(** ** The player id in the path *)

Lemma split_without_slash (s : string) :
  has_slash s = false -> split "/" s = [s].
Proof.
  induction s as [|c s IH]; cbn; [reflexivity|].
  intros H. apply orb_false_iff in H. destruct H as [Hc Hs].
  rewrite Hc, (IH Hs). reflexivity.
Qed.

Lemma split_at_slash (s rest : string) :
  has_slash s = false ->
  split "/" (String.append s (String "/" rest)) = s :: split "/" rest.
Proof.
  induction s as [|c s IH]; cbn; [reflexivity|].
  intros H. apply orb_false_iff in H. destruct H as [Hc Hs].
  rewrite Hc, (IH Hs). reflexivity.
Qed.

(** X21.  The player id the history route queries for is the text between
    the second slash of the path and the next one (or the end), taken as
    it is: for a path [/transactions/<id>], with or without further
    segments, it is [<id>], whether or not [<id>] is a UUID. *)
Theorem playerId_of_history_path (id rest : string) :
  has_slash id = false ->
  playerId_of (Some (String.append "/transactions/" id)) = Some id /\
  playerId_of (Some (String.append "/transactions/"
                                   (String.append id (String "/" rest)))) = Some id /\
  startsWith "/transactions/" (Some (String.append "/transactions/" id)) = true.
Proof.
  intros H. unfold playerId_of. split; [|split].
  - change (String.append "/transactions/" id)
      with (String.append "" (String "/" (String.append "transactions" (String "/" id)))).
    rewrite (split_at_slash "" _ eq_refl), (split_at_slash "transactions" _ eq_refl).
    rewrite (split_without_slash id H). reflexivity.
  - change (String.append "/transactions/" (String.append id (String "/" rest)))
      with (String.append ""
              (String "/" (String.append "transactions"
                             (String "/" (String.append id (String "/" rest)))))).
    rewrite (split_at_slash "" _ eq_refl), (split_at_slash "transactions" _ eq_refl).
    rewrite (split_at_slash id rest H). reflexivity.
  - unfold startsWith. cbn. destruct id; reflexivity.
Qed.

Lemma playerId_of_history_path_witness :
  has_slash "not-a-uuid" = false /\
  playerId_of (Some (String.append "/transactions/" "not-a-uuid")) = Some "not-a-uuid" /\
  playerId_of (Some (String.append "/transactions/"
                                   (String.append "not-a-uuid" (String "/" "latest"))))
  = Some "not-a-uuid" /\
  startsWith "/transactions/" (Some (String.append "/transactions/" "not-a-uuid")) = true.
Proof.
  split; [reflexivity|].
  apply (playerId_of_history_path "not-a-uuid" "latest"). reflexivity.
Defined.
